(** * ape-polygon-zkevm: transaction normalisation

    A shallow embedding of [src/ape_polygon_zkevm/ecosystem.py]:
    [_get_transaction_type], [_get_transaction_cls] and the body of
    [PolygonZkEVM.create_transaction], together with the Python built-ins
    they call ([str.replace], [str.rstrip], [bytes.hex], [int(s, 16)],
    [bytes(x)]) and the library functions they import.

    Conventions.
    - A Python [str] is a Rocq [string] whose characters are the code points
      0..255; a Python [bytes] is a [list byte].
    - The keyword mapping [kwargs] is a [gmap string PyVal].  The values a
      caller puts in it are [None], integers, strings and byte strings;
      the signature object built on lines 85-89 appears only in the mapping
      given to the transaction class, a [gmap string Field].
    - What the source imports and this repository does not define is a
      parameter: the members of [TransactionType] other than [STATIC], the
      active provider, and [parse_obj] of the transaction class.  A member
      of the enumeration has a name and a value; the value of [STATIC] is
      the integer 0.
    - Exceptions are values of [exn]; a computation that may raise returns
      a [result]. *)

From Stdlib Require Import ZArith String Ascii List Bool Lia DecimalString.
From Stdlib Require Import Strings.Byte.
From Stdlib Require DecimalZ.
From stdpp Require Import base gmap strings list fin_maps.

Import ListNotations.
Local Open Scope string_scope.
Local Open Scope Z_scope.

(** ** Values, exceptions, results *)

Inductive PyVal : Type :=
  | PyNone
  | PyInt (n : Z)
  | PyStr (s : string)
  | PyBytes (b : list byte).

#[global] Instance byte_eq_dec : EqDecision byte := Byte.byte_eq_dec.

#[global] Instance PyVal_eq_dec : EqDecision PyVal.
Proof. solve_decision. Defined.

(** Python truthiness: [None], [0], [""] and [b""] are falsy. *)
Definition truthy (x : PyVal) : bool :=
  match x with
  | PyNone => false
  | PyInt n => negb (n =? 0)
  | PyStr s => negb (String.eqb s "")
  | PyBytes b => negb (Nat.eqb (List.length b) 0)
  end.

(** What a [ValueError] is about: the enumeration constructor, the integer
    parser or the [bytes] constructor. *)
Inductive value_error : Type :=
  | NotAValidTransactionType (v : string)
  | InvalidLiteralForInt (s : string)
  | NegativeCount.

Inductive exn : Type :=
  | ValueError (why : value_error)
  | TypeError
  | OverflowError
  | ApePolygonZkEVMError (msg : string)
  | ValidationError (msg : string).

Inductive result (A : Type) : Type :=
  | Ok (a : A)
  | Raise (e : exn).
Arguments Ok {A} a.
Arguments Raise {A} e.

(** Sequencing: the first exception raised is the one that propagates. *)
#[global] Instance result_bind : MBind result := fun A B k r =>
  match r with
  | Ok a => k a
  | Raise e => Raise e
  end.

(** ** Python string and bytes built-ins *)

Definition is_char (c : ascii) (d : string) : bool :=
  String.eqb (String c EmptyString) d.

(** [s.replace("0x", "")]: every occurrence, scanning left to right and
    resuming after each match. *)
Fixpoint replace_0x (s : string) : string :=
  match s with
  | EmptyString => EmptyString
  | String c s' =>
      match s' with
      | String c2 s'' =>
          if is_char c "0" && is_char c2 "x" then replace_0x s''
          else String c (replace_0x s')
      | EmptyString => String c EmptyString
      end
  end.

Fixpoint mem_char (c : ascii) (chars : string) : bool :=
  match chars with
  | EmptyString => false
  | String d rest => Ascii.eqb c d || mem_char c rest
  end.

(** [s.rstrip(chars)]: drop the longest tail made of characters of [chars]. *)
Fixpoint rstrip (chars s : string) : string :=
  match s with
  | EmptyString => EmptyString
  | String c s' =>
      let r := rstrip chars s' in
      if String.eqb r "" && mem_char c chars then EmptyString else String c r
  end.

(** [str(n)] for an integer: decimal digits, with a minus sign. *)
Definition str_int (n : Z) : string := NilZero.string_of_int (Z.to_int n).

Definition hex_char (d : N) : ascii :=
  match d with
  | 0%N => "0" | 1%N => "1" | 2%N => "2" | 3%N => "3" | 4%N => "4"
  | 5%N => "5" | 6%N => "6" | 7%N => "7" | 8%N => "8" | 9%N => "9"
  | 10%N => "a" | 11%N => "b" | 12%N => "c" | 13%N => "d" | 14%N => "e"
  | _ => "f"
  end%char.

(** Two lower-case hex digits of a number below 256. *)
Definition hex2 (n : N) : string :=
  String (hex_char (n / 16)) (String (hex_char (n mod 16)) EmptyString).

(** [b.hex()] *)
Fixpoint bytes_hex (b : list byte) : string :=
  match b with
  | [] => EmptyString
  | x :: b' => hex2 (Byte.to_N x) ++ bytes_hex b'
  end.

(** [eth_utils.add_0x_prefix]: the value is returned as it is when it
    starts with "0x" or "0X". *)
Definition is_0x_prefixed (s : string) : bool :=
  String.prefix "0x" s || String.prefix "0X" s.

Definition add_0x_prefix (s : string) : string :=
  if is_0x_prefixed s then s else "0x" ++ s.

(** ** The transaction type enumeration *)

(** A member of [ape_ethereum.transactions.TransactionType]: its name and
    its value, a Python value. *)
Record TransactionType : Type := Member {
  name : string;
  value : PyVal
}.

#[global] Instance TransactionType_eq_dec : EqDecision TransactionType.
Proof. solve_decision. Defined.

(** Modelled from the spec: the enumeration is declared in ape_ethereum and
    not in this repository; a tag has an "underlying integer value", and
    [STATIC], the tag of the integer 0, has the value 0. *)
Definition STATIC : TransactionType := Member "STATIC" (PyInt 0).

(** [str(member)] *)
Definition str_TransactionType (t : TransactionType) : string :=
  "TransactionType." ++ name t.

(** Lines 105-107: the single character left after removing "0x" is
    padded with a zero. *)
Definition pad_single (_type : string) : string :=
  let suffix := replace_0x _type in
  if Nat.eqb (String.length suffix) 1
  then rstrip suffix _type ++ "0" ++ suffix
  else _type.

(** Lines 98-103: the input as a string.  Line 99, for [None], is never
    reached, since [None] is falsy and line 96 has returned; the empty
    string stands there. *)
Definition type_string (_type : PyVal) : string :=
  match _type with
  | PyNone => EmptyString
  | PyInt n => "0" ++ str_int n
  | PyBytes b => bytes_hex b
  | PyStr s => s
  end.

(** The string that [_get_transaction_type] hands to the enumeration. *)
Definition tag_string (_type : PyVal) : string :=
  add_0x_prefix (pad_single (type_string _type)).

(** The spec's words for an integer input, "a zero-padded one-byte hex
    string": "0x" and the two hex digits of [n], for 0 <= n < 256. *)
Definition one_byte_hex (n : Z) : string := "0x" ++ hex2 (Z.to_N n).

(** [x == v] for a string [v]: a string equals the same string, and no
    integer, byte string or [None] equals a string. *)
Definition equals_str (x : PyVal) (v : string) : bool :=
  match x with
  | PyStr s => String.eqb s v
  | _ => false
  end.

Section Enumeration.

(** The members declared after [STATIC], in declaration order. *)
Variable others : list TransactionType.

Definition members : list TransactionType := STATIC :: others.

Fixpoint find_value (v : string) (ms : list TransactionType)
  : option TransactionType :=
  match ms with
  | [] => None
  | m :: ms' => if equals_str (value m) v then Some m else find_value v ms'
  end.

(** [TransactionType(v)] for a string [v]: the first member whose value
    equals [v]. *)
Definition TransactionType_of_value (v : string) : result TransactionType :=
  match find_value v members with
  | Some m => Ok m
  | None => Raise (ValueError (NotAValidTransactionType v))
  end.

Definition _get_transaction_type (_type : PyVal) : result TransactionType :=
  if negb (truthy _type) then Ok STATIC
  else TransactionType_of_value (tag_string _type).

End Enumeration.

(** The other members of ape_ethereum's enumeration, integers as [STATIC]
    is; the examples run on them, and no theorem depends on them. *)
Definition ape_others : list TransactionType :=
  [Member "ACCESS_LIST" (PyInt 1); Member "DYNAMIC" (PyInt 2)].

(** ** Class selection *)

(** A transaction class ([Type[TransactionAPI]]), by its name. *)
Definition TransactionClass : Type := string.

Definition StaticFeeTransaction : TransactionClass := "StaticFeeTransaction".

Definition transaction_types : list (TransactionType * TransactionClass) :=
  [(STATIC, StaticFeeTransaction)].

Fixpoint dict_get (k : TransactionType)
    (d : list (TransactionType * TransactionClass)) : option TransactionClass :=
  match d with
  | [] => None
  | (k', c) :: d' => if decide (k = k') then Some c else dict_get k d'
  end.

Definition unsupported_message (transaction_type : TransactionType) : string :=
  "Transaction type '" ++ str_TransactionType transaction_type
    ++ "' not supported.".

Definition _get_transaction_cls (transaction_type : TransactionType)
  : result TransactionClass :=
  match dict_get transaction_type transaction_types with
  | None => Raise (ApePolygonZkEVMError (unsupported_message transaction_type))
  | Some c => Ok c
  end.

(** ** [int(s, 16)] *)

(** White space for the integer parser: tab to carriage return, space, and
    the two white-space code points between 128 and 255. *)
Definition is_space (c : ascii) : bool :=
  let n := N_of_ascii c in
  ((9 <=? n) && (n <=? 13) || (n =? 32) || (n =? 133) || (n =? 160))%N.

Definition digit_value (c : ascii) : option Z :=
  let n := Z.of_N (N_of_ascii c) in
  if (48 <=? n) && (n <=? 57) then Some (n - 48)
  else if (97 <=? n) && (n <=? 102) then Some (n - 87)
  else if (65 <=? n) && (n <=? 70) then Some (n - 55)
  else None.

Fixpoint skip_spaces (s : string) : string :=
  match s with
  | EmptyString => EmptyString
  | String c s' => if is_space c then skip_spaces s' else s
  end.

(** Digits with single underscores between them; the value read so far is
    [acc].  Returns the value and what follows the digits. *)
Fixpoint scan_digits (prev_underscore : bool) (acc : Z) (s : string)
  : option (Z * string) :=
  match s with
  | EmptyString => if prev_underscore then None else Some (acc, EmptyString)
  | String c s' =>
      if is_char c "_" then
        if prev_underscore then None else scan_digits true acc s'
      else
        match digit_value c with
        | Some d => scan_digits false (16 * acc + d) s'
        | None => if prev_underscore then None else Some (acc, s)
        end
  end.

Definition read_sign (s : string) : Z * string :=
  match s with
  | String c s' =>
      if is_char c "+" then (1, s')
      else if is_char c "-" then (-1, s')
      else (1, s)
  | EmptyString => (1, s)
  end.

(** An optional "0x" or "0X", and one underscore allowed after it. *)
Definition skip_base_prefix (s : string) : string :=
  match s with
  | String c (String c2 s') =>
      if is_char c "0" && (is_char c2 "x" || is_char c2 "X") then
        match s' with
        | String c3 s'' => if is_char c3 "_" then s'' else s'
        | EmptyString => s'
        end
      else s
  | _ => s
  end.

(** At least one digit, then nothing but white space. *)
Definition parse_digits (s : string) : option Z :=
  match s with
  | EmptyString => None
  | String c _ =>
      match digit_value c with
      | None => None
      | Some _ =>
          match scan_digits false 0 s with
          | None => None
          | Some (n, rest) =>
              match skip_spaces rest with
              | EmptyString => Some n
              | String _ _ => None
              end
          end
      end
  end.

Definition parse_int16 (s : string) : option Z :=
  let '(sign, s1) := read_sign (skip_spaces s) in
  match parse_digits (skip_base_prefix s1) with
  | Some n => Some (sign * n)
  | None => None
  end.

Definition py_int16 (s : string) : result Z :=
  match parse_int16 s with
  | Some n => Ok n
  | None => Raise (ValueError (InvalidLiteralForInt s))
  end.

(** The spec's words, "a base-16 integer": the positional value of a
    sequence of hex digits. *)
Fixpoint hex_digits_value (acc : Z) (s : string) : option Z :=
  match s with
  | EmptyString => Some acc
  | String c s' =>
      match digit_value c with
      | Some d => hex_digits_value (16 * acc + d) s'
      | None => None
      end
  end.

Definition base16_value (s : string) : option Z :=
  match s with
  | EmptyString => None
  | String _ _ => hex_digits_value 0 s
  end.

Definition is_hex_digit (c : ascii) : bool :=
  match digit_value c with
  | Some _ => true
  | None => false
  end.

(** The string of one character. *)
Definition one (c : ascii) : string := String c EmptyString.

(** ** [bytes(x)] *)

(** The largest size of a [bytes] object (64-bit CPython). *)
Definition max_bytes_size : Z := 2 ^ 63 - 1 - 33.

(** [bytes(x)]: a copy of a byte string, [n] zero bytes for an integer [n],
    [TypeError] for [None] and for a string.  Running out of memory on a
    large count is not modelled. *)
Definition py_bytes (x : PyVal) : result (list byte) :=
  match x with
  | PyBytes b => Ok b
  | PyInt n =>
      if n <? 0 then Raise (ValueError NegativeCount)
      else if max_bytes_size <? n then Raise OverflowError
      else Ok (repeat x00 (Z.to_nat n))
  | PyStr _ => Raise TypeError
  | PyNone => Raise TypeError
  end.

(** ** [create_transaction] *)

(** [ape.types.TransactionSignature] *)
Record TransactionSignature : Type := {
  sig_v : PyVal;
  sig_r : list byte;
  sig_s : list byte
}.

(** A value of the normalised mapping: what the caller gave, or the
    signature object built on lines 85-89. *)
Inductive Field : Type :=
  | Plain (x : PyVal)
  | Signature (g : TransactionSignature).

(** The active provider, as far as the source reads it:
    [active_provider.network.required_confirmations]. *)
Record ProviderAPI : Type := {
  network_required_confirmations : Z
}.

(** [kwargs.get(key)] *)
Definition kwargs_get (key : string) (kwargs : gmap string PyVal) : PyVal :=
  match kwargs !! key with
  | Some x => x
  | None => PyNone
  end.

(** Lines 71-74: the default, 0 unless a provider is active. *)
Definition default_of (active_provider : option ProviderAPI) : Z :=
  match active_provider with
  | Some p => network_required_confirmations p
  | None => 0
  end.

(** Lines 69-76. *)
Definition default_confirmations (active_provider : option ProviderAPI)
    (kwargs : gmap string PyVal) : gmap string PyVal :=
  match kwargs !! "required_confirmations" with
  | None | Some PyNone =>
      let required_confirmations := default_of active_provider in
      <["required_confirmations" := PyInt required_confirmations]> kwargs
  | Some _ => kwargs
  end.

(** Lines 78-79. *)
Definition convert_chain_id (kwargs : gmap string PyVal)
  : result (gmap string PyVal) :=
  match kwargs_get "chainId" kwargs with
  | PyStr s => n ← py_int16 s; Ok (<["chainId" := PyInt n]> kwargs)
  | _ => Ok kwargs
  end.

(** Lines 81-82. *)
Definition rename_hash (kwargs : gmap string PyVal) : gmap string PyVal :=
  match kwargs !! "hash" with
  | Some h => <["data" := h]> (delete "hash" kwargs)
  | None => kwargs
  end.

(** Lines 84-89. *)
Definition assemble_signature (kwargs : gmap string PyVal)
  : result (gmap string Field) :=
  match kwargs !! "v", kwargs !! "r", kwargs !! "s" with
  | Some v, Some r, Some s =>
      r' ← py_bytes r;
      s' ← py_bytes s;
      Ok (<["signature" :=
              Signature {| sig_v := v; sig_r := r'; sig_s := s' |}]>
            (Plain <$> kwargs))
  | _, _, _ => Ok (Plain <$> kwargs)
  end.

Section CreateTransaction.

Variable others : list TransactionType.

(** [self.network_manager.active_provider] *)
Variable active_provider : option ProviderAPI.

(** [txn_class.parse_obj]: the validated model of the class, or the
    exception the class raises. *)
Variable Model : Type.
Variable parse_obj : TransactionClass -> gmap string Field -> result Model.

(** The object returned: an instance of a class, holding its model. *)
Record TransactionAPI : Type := {
  instance_class : TransactionClass;
  instance_model : Model
}.

(** Lines 65-89: the selected class and the mapping given to it. *)
Definition normalize (kwargs : gmap string PyVal)
  : result (TransactionClass * gmap string Field) :=
  transaction_type ← _get_transaction_type others (kwargs_get "type" kwargs);
  let kwargs := <["type" := value transaction_type]> kwargs in
  txn_class ← _get_transaction_cls transaction_type;
  let kwargs := default_confirmations active_provider kwargs in
  kwargs ← convert_chain_id kwargs;
  let kwargs := rename_hash kwargs in
  kwargs ← assemble_signature kwargs;
  Ok (txn_class, kwargs).

Definition create_transaction (kwargs : gmap string PyVal)
  : result TransactionAPI :=
  '(cls, kwargs) ← normalize kwargs;
  model ← parse_obj cls kwargs;
  Ok {| instance_class := cls; instance_model := model |}.

End CreateTransaction.

Arguments instance_class {Model} _.
Arguments instance_model {Model} _.

(** A class that accepts every mapping, to run [create_transaction] on
    examples. *)
Definition accept_all (cls : TransactionClass) (kwargs : gmap string Field)
  : result (gmap string Field) := Ok kwargs.

(** ** Networks and their configuration *)

(** Lines 13-17: network name to (chain_id, network_id). *)
Definition NETWORKS : gmap string (Z * Z) :=
  {[ "mainnet" := (1101, 1101); "goerli" := (1442, 1442) ]}.

(** The arguments [NetworkConfig] is built from: the two that the source
    names, and the other keyword arguments it passes on. *)
Record NetworkConfig : Type := {
  required_confirmations : Z;
  block_time : Z;
  config_kwargs : gmap string PyVal
}.

(** Lines 26-31; an argument left out takes its default, 1 and 2. *)
Definition _create_network_config
    (required_confirmations block_time : option Z)
    (kwargs : gmap string PyVal) : NetworkConfig :=
  {| required_confirmations := default 1 required_confirmations;
     block_time := default 2 block_time;
     config_kwargs := kwargs |}.

(** Lines 34-37; [default_provider] is [None] when left out, and is passed
    on in either case. *)
Definition _create_local_config (default_provider : option string)
  : NetworkConfig :=
  _create_network_config (Some 0) (Some 0)
    {[ "default_provider" :=
         match default_provider with
         | Some p => PyStr p
         | None => PyNone
         end ]}.

(** Lines 40-46: the network fields of [PolygonZkEVMConfig], in order. *)
Definition PolygonZkEVMConfig : list (string * NetworkConfig) :=
  [ ("mainnet", _create_network_config None None ∅);
    ("mainnet_fork", _create_local_config None);
    ("goerli", _create_network_config None None ∅);
    ("goerli_fork", _create_local_config None);
    ("local", _create_local_config (Some "test")) ].

(** [getattr(config, name)] for a network field. *)
Fixpoint config_get (name : string) (fields : list (string * NetworkConfig))
  : option NetworkConfig :=
  match fields with
  | [] => None
  | (k, c) :: fields' =>
      if String.eqb k name then Some c else config_get name fields'
  end.

(** ** Auxiliary definitions for the properties *)

(** The string of [k] copies of [c]. *)
Fixpoint rep (k : nat) (c : ascii) : string :=
  match k with
  | O => EmptyString
  | S k' => String c (rep k' c)
  end.

(** The type inputs that resolve to [STATIC]. *)
Definition STATIC_inputs : list PyVal :=
  [PyNone; PyInt 0; PyStr ""; PyBytes []].

(** The type inputs for which the enumeration is asked for "0x00". *)
Definition zero_tag_inputs : list PyVal :=
  [PyBytes [x00]; PyStr "0"; PyStr "00"; PyStr "0x0"; PyStr "0x00"].

(** Line 78-79 does not raise. *)
Definition chain_id_accepted (kwargs : gmap string PyVal) : Prop :=
  forall s, kwargs !! "chainId" = Some (PyStr s) -> parse_int16 s <> None.

(** Lines 84-89 do not raise. *)
Definition signature_accepted (kwargs : gmap string PyVal) : Prop :=
  forall v r s,
    kwargs !! "v" = Some v -> kwargs !! "r" = Some r ->
    kwargs !! "s" = Some s ->
    (exists r', py_bytes r = Ok r') /\ (exists s', py_bytes s = Ok s').

(** The byte of a number below 256. *)
Definition byte_of (n : Z) : byte :=
  match Byte.of_N (Z.to_N n) with
  | Some b => b
  | None => x00
  end.

(** * Properties *)

Example type_of_None : _get_transaction_type ape_others PyNone = Ok STATIC.
Proof. reflexivity. Qed.

Example type_of_2 :
  _get_transaction_type ape_others (PyInt 2) =
    Raise (ValueError (NotAValidTransactionType "0x02")).
Proof. reflexivity. Qed.

Example type_of_bytes_0 :
  _get_transaction_type ape_others (PyBytes [x00]) =
    Raise (ValueError (NotAValidTransactionType "0x00")).
Proof. reflexivity. Qed.

Example pad_single_examples :
  map pad_single ["0x0"; "0"; "00x"; "x"; "0x0x5"; "00xx"; "0x"; "0X5"; "0xx"]
  = ["0x00"; "00"; "00x00"; "0x"; "0x0x05"; "00xx"; "0x"; "0X5"; "00x"].
Proof. reflexivity. Qed.

Example parse_int16_examples :
  map parse_int16
    ["0x45"; "45"; " 45 "; "+45"; "-0x45"; "0X45"; "4_5"; "0x_45"; "_45";
     "45_"; "4__5"; ""; "0x"; "0x 45"; "+ 45"; "0b1"; "-+1"; "g"; "0x0x1";
     "0x__45"; "0x_"; "-0"; "0X_a_b"; "1 2"]
  = [Some 69; Some 69; Some 69; Some 69; Some (-69); Some 69; Some 69;
     Some 69; None; None; None; None; None; None; None; Some 177; None;
     None; None; None; None; Some 0; Some 171; None].
Proof. reflexivity. Qed.

(** ** The enumeration constructor *)

Lemma equals_str_true (x : PyVal) (v : string) :
  equals_str x v = true <-> x = PyStr v.
Proof.
  destruct x as [|n|s|b]; simpl; split; try discriminate.
  - intros H. apply String.eqb_eq in H. congruence.
  - intros [= ->]. apply String.eqb_refl.
Qed.

Lemma find_value_Some (v : string) (ms : list TransactionType) (m : TransactionType) :
  find_value v ms = Some m -> m ∈ ms /\ value m = PyStr v.
Proof.
  induction ms as [|m0 ms IH]; simpl; [discriminate|].
  destruct (equals_str (value m0) v) eqn:E.
  - intros [= <-]. apply equals_str_true in E. split; [left | exact E].
  - intros H. destruct (IH H) as [Hin Hv]. split; [right; exact Hin | exact Hv].
Qed.

Lemma find_value_None (v : string) (ms : list TransactionType) :
  find_value v ms = None -> forall m, m ∈ ms -> value m <> PyStr v.
Proof.
  induction ms as [|m0 ms IH]; simpl; intros H m Hin.
  - inversion Hin.
  - destruct (equals_str (value m0) v) eqn:E; [discriminate|].
    assert (E' : value m0 <> PyStr v).
    { intros Hv. apply equals_str_true in Hv. congruence. }
    inversion Hin; subst; [exact E' | apply IH; assumption].
Qed.

Lemma _get_transaction_type_truthy (others : list TransactionType) (_type : PyVal) :
  truthy _type = true ->
  _get_transaction_type others _type =
    TransactionType_of_value others (tag_string _type).
Proof. intros H. unfold _get_transaction_type. rewrite H. reflexivity. Qed.

Lemma _get_transaction_type_falsy (others : list TransactionType) (_type : PyVal) :
  truthy _type = false -> _get_transaction_type others _type = Ok STATIC.
Proof. intros H. unfold _get_transaction_type. rewrite H. reflexivity. Qed.

Lemma TransactionType_of_value_cases (others : list TransactionType) (v : string) :
  (exists m, TransactionType_of_value others v = Ok m /\
             m ∈ members others /\ value m = PyStr v) \/
  (TransactionType_of_value others v =
     Raise (ValueError (NotAValidTransactionType v)) /\
   forall m, m ∈ members others -> value m <> PyStr v).
Proof.
  unfold TransactionType_of_value.
  destruct (find_value v (members others)) as [m|] eqn:Hf.
  - left. exists m. destruct (find_value_Some _ _ _ Hf) as [Hin Hv].
    split; [reflexivity | split; assumption].
  - right. split; [reflexivity | apply find_value_None; exact Hf].
Qed.

Lemma STATIC_member (others : list TransactionType) : STATIC ∈ members others.
Proof. left. Qed.

(** ** Class selection *)

Lemma _get_transaction_cls_STATIC :
  _get_transaction_cls STATIC = Ok StaticFeeTransaction.
Proof. reflexivity. Qed.

Lemma _get_transaction_cls_other (t : TransactionType) :
  t <> STATIC ->
  _get_transaction_cls t = Raise (ApePolygonZkEVMError (unsupported_message t)).
Proof.
  intros Hne. unfold _get_transaction_cls, transaction_types. simpl.
  destruct (decide (t = STATIC)) as [->|_]; [contradiction | reflexivity].
Qed.

Lemma _get_transaction_cls_Ok (t : TransactionType) (c : TransactionClass) :
  _get_transaction_cls t = Ok c -> t = STATIC /\ c = StaticFeeTransaction.
Proof.
  destruct (decide (t = STATIC)) as [->|Hne].
  - rewrite _get_transaction_cls_STATIC. intros [= <-]. split; reflexivity.
  - rewrite (_get_transaction_cls_other t Hne). discriminate.
Qed.

(** C7. An absent or falsy type input ([None], [0], the empty string, the
    empty byte string) resolves to [STATIC], whatever the enumeration's
    other members are. *)
Theorem falsy_type_is_STATIC (others : list TransactionType) (_type : PyVal) :
  truthy _type = false ->
  _get_transaction_type others _type = Ok STATIC.
Proof.
  apply _get_transaction_type_falsy.
Qed.

Lemma falsy_type_is_STATIC_witness :
  truthy (PyInt 0) = false /\
  _get_transaction_type ape_others (PyInt 0) = Ok STATIC.
Proof.
  split; [reflexivity | apply (falsy_type_is_STATIC ape_others (PyInt 0)); reflexivity].
Defined.

Lemma falsy_values (x : PyVal) :
  truthy x = false <->
  x = PyNone \/ x = PyInt 0 \/ x = PyStr "" \/ x = PyBytes [].
Proof.
  split.
  - destruct x as [|n|s|b]; simpl; intros H.
    + left; reflexivity.
    + right; left. apply negb_false_iff, Z.eqb_eq in H. congruence.
    + right; right; left. apply negb_false_iff, String.eqb_eq in H. congruence.
    + right; right; right. destruct b; [reflexivity | discriminate].
  - intros [->|[->|[->| ->]]]; reflexivity.
Qed.

(** C5. Class selection maps [STATIC] to the static-fee class and raises
    the plugin's own error for every other tag, with a message that quotes
    the tag. *)
Theorem select_class_STATIC_or_unsupported :
  _get_transaction_cls STATIC = Ok StaticFeeTransaction /\
  forall t : TransactionType,
    t <> STATIC ->
    _get_transaction_cls t =
      Raise (ApePolygonZkEVMError
               ("Transaction type 'TransactionType." ++ name t
                  ++ "' not supported.")).
Proof.
  split; [reflexivity|].
  intros t Hne. rewrite (_get_transaction_cls_other t Hne). reflexivity.
Qed.

Lemma select_class_STATIC_or_unsupported_witness :
  Member "DYNAMIC" (PyInt 2) <> STATIC /\
  _get_transaction_cls (Member "DYNAMIC" (PyInt 2)) =
    Raise (ApePolygonZkEVMError
             "Transaction type 'TransactionType.DYNAMIC' not supported.").
Proof.
  split; [discriminate|].
  apply (proj2 select_class_STATIC_or_unsupported (Member "DYNAMIC" (PyInt 2))).
  discriminate.
Defined.

(** C1, as the code has it.  Type resolution returns a member of the
    enumeration, [STATIC] for a falsy input and otherwise the member whose
    value is the normalised string; when no member has that value it is
    type resolution itself that raises, with the enumeration's
    [ValueError].  Class selection raises nothing but the plugin's
    unsupported-type error. *)
Theorem type_resolution_validates_membership
    (others : list TransactionType) (_type : PyVal) :
  ((exists tag, _get_transaction_type others _type = Ok tag /\
                tag ∈ members others /\
                (truthy _type = true ->
                 value tag = PyStr (tag_string _type))) \/
   (truthy _type = true /\
    _get_transaction_type others _type =
      Raise (ValueError (NotAValidTransactionType (tag_string _type))) /\
    forall m, m ∈ members others -> value m <> PyStr (tag_string _type))) /\
  (forall tag e, _get_transaction_cls tag = Raise e ->
                 e = ApePolygonZkEVMError (unsupported_message tag)).
Proof.
  split.
  - destruct (truthy _type) eqn:Ht.
    + rewrite (_get_transaction_type_truthy others _type Ht).
      destruct (TransactionType_of_value_cases others (tag_string _type))
        as [(m & Hm & Hin & Hv) | [Hr Hn]].
      * left. exists m. split; [exact Hm | split; [exact Hin | intros _; exact Hv]].
      * right. split; [reflexivity | split; [exact Hr | exact Hn]].
    + left. exists STATIC. rewrite (_get_transaction_type_falsy others _type Ht).
      split; [reflexivity | split; [apply STATIC_member | discriminate]].
  - intros tag e. destruct (decide (tag = STATIC)) as [->|Hne].
    + rewrite _get_transaction_cls_STATIC. discriminate.
    + rewrite (_get_transaction_cls_other tag Hne). intros [= <-]. reflexivity.
Qed.

Lemma type_resolution_validates_membership_witness :
  _get_transaction_cls (Member "DYNAMIC" (PyInt 2)) =
    Raise (ApePolygonZkEVMError
             "Transaction type 'TransactionType.DYNAMIC' not supported.") /\
  ApePolygonZkEVMError
    "Transaction type 'TransactionType.DYNAMIC' not supported." =
  ApePolygonZkEVMError (unsupported_message (Member "DYNAMIC" (PyInt 2))).
Proof.
  split; [reflexivity|].
  apply (proj2 (type_resolution_validates_membership ape_others PyNone)
               (Member "DYNAMIC" (PyInt 2))).
  reflexivity.
Defined.

(** C1 as stated fails: on the integer 5 type resolution itself raises the
    invalid-value error and produces no tag, so class selection is never
    reached; with [STATIC] as the only member and with a second one. *)
Lemma type_resolution_raises_on_5 :
  _get_transaction_type [] (PyInt 5) =
    Raise (ValueError (NotAValidTransactionType "0x05")) /\
  _get_transaction_type ape_others (PyInt 5) =
    Raise (ValueError (NotAValidTransactionType "0x05")) /\
  ~ (exists tag, _get_transaction_type ape_others (PyInt 5) = Ok tag).
Proof.
  split; [reflexivity | split; [reflexivity|]]. intros [tag H]. discriminate H.
Qed.

(** ** Integer input *)

Fixpoint no_x (s : string) : bool :=
  match s with
  | EmptyString => true
  | String c s' => negb (is_char c "x") && negb (is_char c "X") && no_x s'
  end.

Lemma replace_0x_no_x (s : string) : no_x s = true -> replace_0x s = s.
Proof.
  induction s as [|c s IH]; [reflexivity|]. intros H.
  simpl in H. apply andb_true_iff in H as [_ Hs].
  specialize (IH Hs). destruct s as [|c2 s'']; [reflexivity|].
  simpl in Hs. apply andb_true_iff in Hs as [Hc2 _].
  apply andb_true_iff in Hc2 as [Hx _]. apply negb_true_iff in Hx.
  change (replace_0x (String c (String c2 s'')))
    with (if is_char c "0" && is_char c2 "x" then replace_0x s''
          else String c (replace_0x (String c2 s''))).
  rewrite Hx, andb_false_r, IH. reflexivity.
Qed.

Lemma no_x_string_of_uint (d : Decimal.uint) :
  no_x (NilEmpty.string_of_uint d) = true.
Proof. induction d; simpl; auto. Qed.

Lemma string_of_uint_shape (d : Decimal.uint) :
  exists c s, NilZero.string_of_uint d = String c s /\
              no_x (String c s) = true.
Proof.
  pose proof (no_x_string_of_uint d) as H.
  destruct d; simpl in *; eexists _, _; (split; [reflexivity | auto]).
Qed.

Lemma str_int_shape (n : Z) :
  exists c s, str_int n = String c s /\ no_x (String c s) = true.
Proof.
  unfold str_int. destruct (Z.to_int n) as [d|d]; simpl.
  - apply string_of_uint_shape.
  - destruct (string_of_uint_shape d) as (c & s & -> & H).
    eexists _, _. split; [reflexivity|].
    change (no_x (String "-" (String c s))) with (no_x (String c s)).
    exact H.
Qed.

(** Line 101 for every integer: "0x0" and the decimal digits. *)
Lemma int_tag_string_is_decimal (n : Z) :
  tag_string (PyInt n) = "0x0" ++ str_int n.
Proof.
  destruct (str_int_shape n) as (c & s & E & Hx).
  unfold tag_string, type_string, pad_single. rewrite E.
  assert (Hr : replace_0x ("0" ++ String c s) = "0" ++ String c s)
    by (apply replace_0x_no_x; exact Hx).
  rewrite Hr.
  change (Nat.eqb (String.length ("0" ++ String c s)) 1) with false.
  cbv iota. unfold add_0x_prefix, is_0x_prefixed.
  simpl in Hx. apply andb_true_iff in Hx as [Hc _].
  apply andb_true_iff in Hc as [Hx HX].
  apply negb_true_iff in Hx, HX.
  assert (P1 : String.prefix "0x" ("0" ++ String c s) = false).
  { destruct c as [[] [] [] [] [] [] [] []];
      first [discriminate Hx | reflexivity]. }
  assert (P2 : String.prefix "0X" ("0" ++ String c s) = false).
  { destruct c as [[] [] [] [] [] [] [] []];
      first [discriminate HX | reflexivity]. }
  rewrite P1, P2. reflexivity.
Qed.

Lemma small_int_cases (n : Z) :
  1 <= n <= 9 ->
  n = 1 \/ n = 2 \/ n = 3 \/ n = 4 \/ n = 5 \/ n = 6 \/ n = 7 \/ n = 8 \/ n = 9.
Proof. lia. Qed.

(** C2, as the code has it.  An integer from 1 to 9 is formatted as "0x0"
    followed by its digit, which is its zero-padded one-byte hex string,
    and that string is what the enumeration is asked for. *)
Theorem single_digit_int_is_one_byte_hex
    (others : list TransactionType) (n : Z) :
  1 <= n <= 9 ->
  tag_string (PyInt n) = one_byte_hex n /\
  _get_transaction_type others (PyInt n) =
    TransactionType_of_value others (one_byte_hex n).
Proof.
  intros Hn.
  assert (Ht : tag_string (PyInt n) = one_byte_hex n).
  { destruct (small_int_cases n Hn)
      as [->|[->|[->|[->|[->|[->|[->|[->| ->]]]]]]]]; reflexivity. }
  split; [exact Ht|].
  rewrite _get_transaction_type_truthy, Ht; [reflexivity|].
  simpl. apply negb_true_iff, Z.eqb_neq. lia.
Qed.

Lemma single_digit_int_is_one_byte_hex_witness :
  1 <= 2 <= 9 /\
  tag_string (PyInt 2) = "0x02" /\
  _get_transaction_type ape_others (PyInt 2) =
    TransactionType_of_value ape_others "0x02".
Proof.
  split; [lia|].
  apply (single_digit_int_is_one_byte_hex ape_others 2). lia.
Defined.

(** C2 as stated fails: the integer 10 is formatted with its decimal
    digits, "0x010", and not as the one-byte hex string "0x0a". *)
Lemma int_10_is_not_formatted_as_hex :
  tag_string (PyInt 10) = "0x010" /\
  one_byte_hex 10 = "0x0a" /\
  tag_string (PyInt 10) <> one_byte_hex 10.
Proof.
  split; [reflexivity | split; [reflexivity | discriminate]].
Qed.

(** ** Single hex digits *)

Lemma single_digit_strings (c : ascii) :
  is_hex_digit c = true ->
  tag_string (PyStr (one c)) = "0x0" ++ one c /\
  tag_string (PyStr ("0x" ++ one c)) = "0x0" ++ one c /\
  tag_string (PyStr ("0" ++ one c)) = "0x0" ++ one c /\
  tag_string (PyStr ("0x0" ++ one c)) = "0x0" ++ one c.
Proof.
  destruct c as [[] [] [] [] [] [] [] []]; intros H;
    first [discriminate H | repeat split; reflexivity].
Qed.





(** ** The steps of [create_transaction] *)

Lemma bind_Ok {A B : Type} (r : result A) (k : A -> result B) (b : B) :
  r ≫= k = Ok b -> exists a, r = Ok a /\ k a = Ok b.
Proof. destruct r as [a|e]; [intros H; exists a; auto | discriminate]. Qed.

Lemma bind_of_Ok {A B : Type} (a : A) (k : A -> result B) : Ok a ≫= k = k a.
Proof. reflexivity. Qed.

Lemma bind_of_Raise {A B : Type} (e : exn) (k : A -> result B) :
  Raise e ≫= k = Raise e.
Proof. reflexivity. Qed.

Lemma kwargs_get_lookup (key : string) (kwargs : gmap string PyVal) (x : PyVal) :
  kwargs !! key = Some x -> kwargs_get key kwargs = x.
Proof. unfold kwargs_get. intros ->. reflexivity. Qed.

Lemma default_confirmations_other ap (kwargs : gmap string PyVal) (k : string) :
  k <> "required_confirmations" ->
  default_confirmations ap kwargs !! k = kwargs !! k.
Proof.
  intros Hk. unfold default_confirmations.
  destruct (kwargs !! "required_confirmations") as [[]|];
    try reflexivity; rewrite lookup_insert_ne; congruence.
Qed.

Lemma default_confirmations_absent ap (kwargs : gmap string PyVal) :
  kwargs !! "required_confirmations" = None \/
  kwargs !! "required_confirmations" = Some PyNone ->
  default_confirmations ap kwargs !! "required_confirmations"
  = Some (PyInt (default_of ap)).
Proof.
  unfold default_confirmations.
  intros [-> | ->]; rewrite lookup_insert_eq; reflexivity.
Qed.

Lemma default_confirmations_present ap (kwargs : gmap string PyVal) (x : PyVal) :
  kwargs !! "required_confirmations" = Some x -> x <> PyNone ->
  default_confirmations ap kwargs = kwargs.
Proof.
  unfold default_confirmations. intros -> Hx.
  destruct x; [contradiction | reflexivity..].
Qed.

Lemma convert_chain_id_other (kwargs kwargs' : gmap string PyVal) (k : string) :
  convert_chain_id kwargs = Ok kwargs' -> k <> "chainId" ->
  kwargs' !! k = kwargs !! k.
Proof.
  unfold convert_chain_id. intros H Hk.
  destruct (kwargs_get "chainId" kwargs); try (injection H as <-; reflexivity).
  apply bind_Ok in H as (n & _ & H). injection H as <-.
  rewrite lookup_insert_ne; congruence.
Qed.

Lemma convert_chain_id_str (kwargs : gmap string PyVal) (s : string) :
  kwargs !! "chainId" = Some (PyStr s) ->
  convert_chain_id kwargs =
    match parse_int16 s with
    | Some n => Ok (<["chainId" := PyInt n]> kwargs)
    | None => Raise (ValueError (InvalidLiteralForInt s))
    end.
Proof.
  intros H. unfold convert_chain_id. rewrite (kwargs_get_lookup _ _ _ H).
  unfold py_int16. destruct (parse_int16 s); reflexivity.
Qed.

Lemma rename_hash_other (kwargs : gmap string PyVal) (k : string) :
  k <> "hash" -> k <> "data" -> rename_hash kwargs !! k = kwargs !! k.
Proof.
  intros Hh Hd. unfold rename_hash.
  destruct (kwargs !! "hash"); [|reflexivity].
  rewrite lookup_insert_ne by congruence.
  rewrite lookup_delete_ne by congruence. reflexivity.
Qed.

Lemma assemble_signature_other
    (kwargs : gmap string PyVal) (kwargs' : gmap string Field) (k : string) :
  assemble_signature kwargs = Ok kwargs' -> k <> "signature" ->
  kwargs' !! k = Plain <$> kwargs !! k.
Proof.
  unfold assemble_signature. intros H Hk.
  destruct (kwargs !! "v") as [v|], (kwargs !! "r") as [r|],
    (kwargs !! "s") as [s|];
    try (injection H as <-; apply lookup_fmap).
  apply bind_Ok in H as (r' & _ & H). apply bind_Ok in H as (s' & _ & H).
  injection H as <-. rewrite lookup_insert_ne by congruence. apply lookup_fmap.
Qed.

Lemma assemble_signature_present
    (kwargs : gmap string PyVal) (kwargs' : gmap string Field) (v r s : PyVal) :
  kwargs !! "v" = Some v -> kwargs !! "r" = Some r -> kwargs !! "s" = Some s ->
  assemble_signature kwargs = Ok kwargs' ->
  exists r' s',
    py_bytes r = Ok r' /\ py_bytes s = Ok s' /\
    kwargs' = <["signature" :=
                 Signature {| sig_v := v; sig_r := r'; sig_s := s' |}]>
                (Plain <$> kwargs).
Proof.
  unfold assemble_signature. intros -> -> -> H.
  apply bind_Ok in H as (r' & Hr & H). apply bind_Ok in H as (s' & Hs & H).
  injection H as <-. exists r', s'. auto.
Qed.

Lemma assemble_signature_missing (kwargs : gmap string PyVal) :
  kwargs !! "v" = None \/ kwargs !! "r" = None \/ kwargs !! "s" = None ->
  assemble_signature kwargs = Ok (Plain <$> kwargs).
Proof.
  unfold assemble_signature.
  intros [-> | [-> | ->]];
    destruct (kwargs !! "v"), (kwargs !! "r"), (kwargs !! "s"); reflexivity.
Qed.

(** What a successful [normalize] went through. *)
Lemma normalize_Ok others ap (kwargs : gmap string PyVal)
    (cls : TransactionClass) (kwargs' : gmap string Field) :
  normalize others ap kwargs = Ok (cls, kwargs') ->
  exists kwargs1,
    _get_transaction_type others (kwargs_get "type" kwargs) = Ok STATIC /\
    cls = StaticFeeTransaction /\
    convert_chain_id
      (default_confirmations ap (<["type" := value STATIC]> kwargs))
    = Ok kwargs1 /\
    assemble_signature (rename_hash kwargs1) = Ok kwargs'.
Proof.
  unfold normalize. intros H.
  apply bind_Ok in H as (tag & Htag & H).
  apply bind_Ok in H as (c & Hc & H).
  apply bind_Ok in H as (kwargs1 & H1 & H).
  apply bind_Ok in H as (kwargs2 & H2 & H).
  injection H as <- <-.
  apply _get_transaction_cls_Ok in Hc as [-> ->].
  exists kwargs1. auto.
Qed.

(** The keys that the steps before the signature leave alone. *)
Lemma normalize_untouched others ap (kwargs : gmap string PyVal)
    (cls : TransactionClass) (kwargs' : gmap string Field) (k : string) :
  normalize others ap kwargs = Ok (cls, kwargs') ->
  k <> "type" -> k <> "required_confirmations" -> k <> "chainId" ->
  k <> "hash" -> k <> "data" -> k <> "signature" ->
  kwargs' !! k = Plain <$> kwargs !! k.
Proof.
  intros H Ht Hr Hc Hh Hd Hs.
  apply normalize_Ok in H as (kwargs1 & _ & _ & H1 & H2).
  rewrite (assemble_signature_other _ _ k H2 Hs).
  rewrite (rename_hash_other _ k Hh Hd).
  rewrite (convert_chain_id_other _ _ k H1 Hc).
  rewrite (default_confirmations_other _ _ k Hr).
  rewrite lookup_insert_ne by congruence. reflexivity.
Qed.

Lemma create_transaction_Ok others ap (Model : Type)
    (parse_obj : TransactionClass -> gmap string Field -> result Model)
    (kwargs : gmap string PyVal) (txn : TransactionAPI Model) :
  create_transaction others ap Model parse_obj kwargs = Ok txn ->
  exists kwargs',
    normalize others ap kwargs = Ok (instance_class txn, kwargs') /\
    parse_obj (instance_class txn) kwargs' = Ok (instance_model txn).
Proof.
  unfold create_transaction. intros H.
  apply bind_Ok in H as ([cls kwargs'] & Hn & H).
  apply bind_Ok in H as (model & Hp & H).
  injection H as <-. exists kwargs'. auto.
Qed.

(** C10. A transaction that [create_transaction] returns is an instance of
    the static-fee class, and the tag resolved from the input is
    [STATIC]. *)
Theorem created_transaction_is_static others ap (Model : Type)
    (parse_obj : TransactionClass -> gmap string Field -> result Model)
    (kwargs : gmap string PyVal) (txn : TransactionAPI Model) :
  create_transaction others ap Model parse_obj kwargs = Ok txn ->
  instance_class txn = StaticFeeTransaction /\
  _get_transaction_type others (kwargs_get "type" kwargs) = Ok STATIC.
Proof.
  intros H. apply create_transaction_Ok in H as (kwargs' & Hn & _).
  apply normalize_Ok in Hn as (_ & Ht & Hc & _). auto.
Qed.

Lemma created_transaction_is_static_witness :
  exists txn,
    create_transaction ape_others None _ accept_all
      {[ "type" := PyInt 0 ]} = Ok txn /\
    instance_class txn = StaticFeeTransaction /\
    _get_transaction_type ape_others
      (kwargs_get "type" {[ "type" := PyInt 0 ]}) = Ok STATIC.
Proof.
  eexists. split; [reflexivity|].
  eapply (created_transaction_is_static ape_others None _ accept_all).
  reflexivity.
Defined.

(** C3.  When [create_transaction] succeeds, the [type] field of the
    mapping given to the class is the underlying value of the resolved
    tag, an integer, whatever the caller gave under [type]; so it is never
    absent and never [None]. *)
Theorem type_field_is_tag_value others ap (Model : Type)
    (parse_obj : TransactionClass -> gmap string Field -> result Model)
    (kwargs : gmap string PyVal) (txn : TransactionAPI Model) :
  create_transaction others ap Model parse_obj kwargs = Ok txn ->
  exists tag kwargs' n,
    _get_transaction_type others (kwargs_get "type" kwargs) = Ok tag /\
    value tag = PyInt n /\
    normalize others ap kwargs = Ok (instance_class txn, kwargs') /\
    kwargs' !! "type" = Some (Plain (PyInt n)) /\
    parse_obj (instance_class txn) kwargs' = Ok (instance_model txn).
Proof.
  intros H. apply create_transaction_Ok in H as (kwargs' & Hn & Hp).
  exists STATIC, kwargs', 0.
  destruct (normalize_Ok _ _ _ _ _ Hn) as (kwargs1 & Ht & _ & H1 & H2).
  split; [exact Ht | split; [reflexivity|]].
  split; [exact Hn | split; [|exact Hp]].
  rewrite (assemble_signature_other _ _ "type" H2) by discriminate.
  rewrite rename_hash_other by discriminate.
  rewrite (convert_chain_id_other _ _ "type" H1) by discriminate.
  rewrite default_confirmations_other by discriminate.
  rewrite lookup_insert_eq. reflexivity.
Qed.

Lemma type_field_is_tag_value_witness :
  exists txn tag kwargs' n,
    create_transaction ape_others None _ accept_all {[ "type" := PyNone ]}
    = Ok txn /\
    _get_transaction_type ape_others
      (kwargs_get "type" {[ "type" := PyNone ]}) = Ok tag /\
    value tag = PyInt n /\
    normalize ape_others None {[ "type" := PyNone ]}
    = Ok (instance_class txn, kwargs') /\
    kwargs' !! "type" = Some (Plain (PyInt n)) /\
    accept_all (instance_class txn) kwargs' = Ok (instance_model txn).
Proof.
  eexists.
  assert (H : create_transaction ape_others None _ accept_all
                {[ "type" := PyNone ]} = Ok _)
    by reflexivity.
  destruct (type_field_is_tag_value ape_others None _ accept_all
              {[ "type" := PyNone ]} _ H)
    as (tag & kwargs' & n & H1 & H2 & H3 & H4 & H5).
  exists tag, kwargs', n. auto 10.
Defined.

(** C6. In the mapping given to the class, [required_confirmations] is the
    active provider's configured count, or 0 without an active provider,
    when the caller left it out or gave [None]; a value the caller gave is
    kept. *)
Theorem required_confirmations_default others ap
    (kwargs : gmap string PyVal) (cls : TransactionClass)
    (kwargs' : gmap string Field) :
  normalize others ap kwargs = Ok (cls, kwargs') ->
  (kwargs !! "required_confirmations" = None \/
   kwargs !! "required_confirmations" = Some PyNone ->
   kwargs' !! "required_confirmations" =
     Some (Plain (PyInt match ap with
                        | Some p => network_required_confirmations p
                        | None => 0
                        end))) /\
  (forall x, kwargs !! "required_confirmations" = Some x -> x <> PyNone ->
             kwargs' !! "required_confirmations" = Some (Plain x)).
Proof.
  intros Hn.
  destruct (normalize_Ok _ _ _ _ _ Hn) as (kwargs1 & _ & _ & H1 & H2).
  assert (E : kwargs' !! "required_confirmations" =
              Plain <$> default_confirmations ap
                          (<["type" := value STATIC]> kwargs)
                        !! "required_confirmations").
  { rewrite (assemble_signature_other _ _ _ H2) by discriminate.
    rewrite rename_hash_other by discriminate.
    rewrite (convert_chain_id_other _ _ _ H1) by discriminate. reflexivity. }
  assert (L : <["type" := value STATIC]> kwargs
                !! "required_confirmations"
              = kwargs !! "required_confirmations")
    by (apply lookup_insert_ne; discriminate).
  split.
  - intros Habs. rewrite E, default_confirmations_absent; [reflexivity|].
    rewrite L. exact Habs.
  - intros x Hx Hne. rewrite E.
    rewrite (default_confirmations_present ap _ x); [|rewrite L; exact Hx|exact Hne].
    rewrite L, Hx. reflexivity.
Qed.

Lemma required_confirmations_default_witness :
  exists kwargs',
    normalize ape_others (Some {| network_required_confirmations := 2 |})
      {[ "required_confirmations" := PyNone ]}
    = Ok (StaticFeeTransaction, kwargs') /\
    kwargs' !! "required_confirmations" = Some (Plain (PyInt 2)).
Proof.
  eexists. split; [reflexivity|].
  refine (proj1 (required_confirmations_default ape_others
                   (Some {| network_required_confirmations := 2 |})
                   {[ "required_confirmations" := PyNone ]}
                   StaticFeeTransaction _ _) _);
    [reflexivity | right; reflexivity].
Defined.

(** ** [int(s, 16)] on hex digits *)

Lemma hex_digit_char (c : ascii) (d : Z) :
  digit_value c = Some d ->
  is_space c = false /\ is_char c "_" = false /\ is_char c "+" = false /\
  is_char c "-" = false /\ is_char c "x" = false /\ is_char c "X" = false /\
  0 <= d < 16.
Proof.
  destruct c as [[] [] [] [] [] [] [] []]; intros H;
    first [discriminate H
          | injection H as <-; repeat split; first [reflexivity | discriminate]].
Qed.

Lemma scan_digits_hex (s : string) (acc v : Z) :
  hex_digits_value acc s = Some v ->
  scan_digits false acc s = Some (v, EmptyString).
Proof.
  revert acc. induction s as [|c s IH]; intros acc; simpl.
  - intros [= ->]. reflexivity.
  - destruct (digit_value c) as [d|] eqn:Hd; [|discriminate].
    destruct (hex_digit_char c d Hd) as (_ & -> & _). apply IH.
Qed.

Lemma parse_digits_hex (s : string) (v : Z) :
  base16_value s = Some v -> parse_digits s = Some v.
Proof.
  destruct s as [|c s]; [discriminate|]. unfold base16_value. intros H.
  unfold parse_digits. rewrite (scan_digits_hex _ _ _ H).
  simpl in H. destruct (digit_value c); [reflexivity | discriminate].
Qed.

Lemma base16_value_head (s : string) (v : Z) :
  base16_value s = Some v ->
  exists c d s', s = String c s' /\ digit_value c = Some d /\
                 (s' = EmptyString \/
                  exists c' d' s'', s' = String c' s'' /\ digit_value c' = Some d').
Proof.
  destruct s as [|c s']; [discriminate|]. unfold base16_value. simpl.
  destruct (digit_value c) as [d|] eqn:Hd; [|discriminate].
  intros H. exists c, d, s'. split; [reflexivity | split; [exact Hd|]].
  destruct s' as [|c' s'']; [left; reflexivity | right].
  simpl in H. destruct (digit_value c') as [d'|] eqn:Hd'; [|discriminate].
  exists c', d', s''. split; [reflexivity | exact Hd'].
Qed.

(** A plain sequence of hex digits is read as its positional value. *)
Lemma parse_int16_hex (s : string) (v : Z) :
  base16_value s = Some v -> parse_int16 s = Some v.
Proof.
  intros H. pose proof (parse_digits_hex s v H) as Hp.
  destruct (base16_value_head s v H) as (c & d & s' & -> & Hd & Hs').
  destruct (hex_digit_char c d Hd) as (Hsp & _ & Hplus & Hminus & _).
  unfold parse_int16.
  assert (E1 : skip_spaces (String c s') = String c s')
    by (simpl; rewrite Hsp; reflexivity).
  rewrite E1.
  assert (E2 : read_sign (String c s') = (1, String c s'))
    by (unfold read_sign; rewrite Hplus, Hminus; reflexivity).
  rewrite E2.
  assert (E3 : skip_base_prefix (String c s') = String c s').
  { destruct Hs' as [-> | (c' & d' & s'' & -> & Hd')]; [reflexivity|].
    destruct (hex_digit_char c' d' Hd') as (_ & _ & _ & _ & Hx & HX & _).
    unfold skip_base_prefix. rewrite Hx, HX, andb_false_r. reflexivity. }
  rewrite E3, Hp. f_equal. apply Z.mul_1_l.
Qed.

(** So is one with "0x" in front. *)
Lemma parse_int16_0x_hex (s : string) (v : Z) :
  base16_value s = Some v -> parse_int16 ("0x" ++ s) = Some v.
Proof.
  intros H. pose proof (parse_digits_hex s v H) as Hp.
  destruct (base16_value_head s v H) as (c & d & s' & -> & Hd & _).
  destruct (hex_digit_char c d Hd) as (_ & Hu & _).
  change (parse_int16 ("0x" ++ String c s'))
    with (match parse_digits (if is_char c "_" then s' else String c s') with
          | Some n => Some (1 * n)
          | None => None
          end).
  rewrite Hu, Hp. f_equal. apply Z.mul_1_l.
Qed.

Example chain_id_0x45 : py_int16 "0x45" = Ok 69.
Proof. reflexivity. Qed.

(** C8.  With a string under [chainId]: the mapping given to the class
    holds the integer that [int(s, 16)] reads; a string that [int(s, 16)]
    rejects makes [create_transaction] raise, and what it raises, once the
    type has resolved to [STATIC], is the parser's [ValueError]; hex
    digits, with or without "0x", are read as their base-16 value. *)
Theorem chain_id_string_is_read_base16 others ap (Model : Type)
    (parse_obj : TransactionClass -> gmap string Field -> result Model)
    (kwargs : gmap string PyVal) (s : string) :
  kwargs !! "chainId" = Some (PyStr s) ->
  (forall n cls kwargs',
     parse_int16 s = Some n ->
     normalize others ap kwargs = Ok (cls, kwargs') ->
     kwargs' !! "chainId" = Some (Plain (PyInt n))) /\
  (parse_int16 s = None ->
   (exists e, create_transaction others ap Model parse_obj kwargs = Raise e) /\
   (_get_transaction_type others (kwargs_get "type" kwargs) = Ok STATIC ->
    create_transaction others ap Model parse_obj kwargs =
      Raise (ValueError (InvalidLiteralForInt s)))) /\
  (forall digits v,
     base16_value digits = Some v ->
     s = digits \/ s = "0x" ++ digits ->
     parse_int16 s = Some v).
Proof.
  intros Hc.
  assert (L : default_confirmations ap
                (<["type" := value STATIC]> kwargs) !! "chainId"
              = Some (PyStr s)).
  { rewrite default_confirmations_other by discriminate.
    rewrite lookup_insert_ne by discriminate. exact Hc. }
  pose proof (convert_chain_id_str _ s L) as Hconv.
  split; [|split].
  - intros n cls kwargs' Hn Hnorm.
    destruct (normalize_Ok _ _ _ _ _ Hnorm) as (kwargs1 & _ & _ & H1 & H2).
    rewrite Hconv, Hn in H1. injection H1 as <-.
    rewrite (assemble_signature_other _ _ _ H2) by discriminate.
    rewrite rename_hash_other by discriminate.
    rewrite lookup_insert_eq. reflexivity.
  - intros Hn. rewrite Hn in Hconv.
    assert (R : _get_transaction_type others (kwargs_get "type" kwargs)
                = Ok STATIC ->
                create_transaction others ap Model parse_obj kwargs =
                  Raise (ValueError (InvalidLiteralForInt s))).
    { intros Ht. unfold create_transaction, normalize.
      rewrite Ht, bind_of_Ok, _get_transaction_cls_STATIC, bind_of_Ok.
      rewrite Hconv. reflexivity. }
    split; [|exact R].
    destruct (_get_transaction_type others (kwargs_get "type" kwargs))
      as [tag|e] eqn:Ht.
    + destruct (decide (tag = STATIC)) as [->|Hne].
      * eexists. apply R. reflexivity.
      * eexists. unfold create_transaction, normalize.
        rewrite Ht, bind_of_Ok, (_get_transaction_cls_other tag Hne).
        reflexivity.
    + exists e. unfold create_transaction, normalize. rewrite Ht. reflexivity.
  - intros digits v Hv [-> | ->];
      [apply parse_int16_hex | apply parse_int16_0x_hex]; exact Hv.
Qed.

Lemma chain_id_string_is_read_base16_witness :
  exists kwargs',
    normalize ape_others None {[ "chainId" := PyStr "0x45" ]}
    = Ok (StaticFeeTransaction, kwargs') /\
    kwargs' !! "chainId" = Some (Plain (PyInt 69)).
Proof.
  eexists. split; [reflexivity|].
  refine (proj1 (chain_id_string_is_read_base16 ape_others None _ accept_all
                   {[ "chainId" := PyStr "0x45" ]} "0x45" _)
                69 StaticFeeTransaction _ _ _);
    reflexivity.
Defined.

(** ** The signature *)

(** C9.  For a mapping that holds [v], [r] and [s], the mapping given to
    the class has [signature] built from [v], [bytes(r)] and [bytes(s)],
    next to [v], [r] and [s] as the caller gave them; when one of them is
    missing, [signature] is what the caller gave, if anything.  The step
    on lines 84-89 itself, on every mapping, leaves every key but
    [signature] with its value, and returns the mapping as it is when one
    of the three is missing; so the fields that no earlier step writes
    reach the class as the caller gave them. *)
Theorem signature_is_assembled others ap
    (kwargs : gmap string PyVal) (cls : TransactionClass)
    (kwargs' : gmap string Field) :
  normalize others ap kwargs = Ok (cls, kwargs') ->
  (forall v r s,
     kwargs !! "v" = Some v -> kwargs !! "r" = Some r ->
     kwargs !! "s" = Some s ->
     exists r' s',
       py_bytes r = Ok r' /\ py_bytes s = Ok s' /\
       kwargs' !! "signature" =
         Some (Signature {| sig_v := v; sig_r := r'; sig_s := s' |}) /\
       kwargs' !! "v" = Some (Plain v) /\
       kwargs' !! "r" = Some (Plain r) /\
       kwargs' !! "s" = Some (Plain s)) /\
  (kwargs !! "v" = None \/ kwargs !! "r" = None \/ kwargs !! "s" = None ->
   kwargs' !! "signature" = Plain <$> kwargs !! "signature") /\
  (forall k,
     k <> "type" -> k <> "required_confirmations" -> k <> "chainId" ->
     k <> "hash" -> k <> "data" -> k <> "signature" ->
     kwargs' !! k = Plain <$> kwargs !! k) /\
  (forall (before : gmap string PyVal) (after : gmap string Field),
     assemble_signature before = Ok after ->
     (forall k, k <> "signature" -> after !! k = Plain <$> before !! k) /\
     (before !! "v" = None \/ before !! "r" = None \/ before !! "s" = None ->
      after = Plain <$> before) /\
     (forall v r s,
        before !! "v" = Some v -> before !! "r" = Some r ->
        before !! "s" = Some s ->
        exists r' s',
          py_bytes r = Ok r' /\ py_bytes s = Ok s' /\
          after = <["signature" :=
                      Signature {| sig_v := v; sig_r := r'; sig_s := s' |}]>
                    (Plain <$> before))).
Proof.
  intros Hn.
  destruct (normalize_Ok _ _ _ _ _ Hn) as (kwargs1 & _ & _ & H1 & H2).
  assert (L : forall k, k <> "type" -> k <> "required_confirmations" ->
                        k <> "chainId" -> k <> "hash" -> k <> "data" ->
                        rename_hash kwargs1 !! k = kwargs !! k).
  { intros k Ht Hr Hc Hh Hd.
    rewrite rename_hash_other by assumption.
    rewrite (convert_chain_id_other _ _ k H1 Hc).
    rewrite default_confirmations_other by assumption.
    apply lookup_insert_ne. congruence. }
  split; [|split; [|split]].
  - intros v r s Hv Hr Hs.
    rewrite <- (L "v") in Hv by discriminate.
    rewrite <- (L "r") in Hr by discriminate.
    rewrite <- (L "s") in Hs by discriminate.
    destruct (assemble_signature_present _ _ v r s Hv Hr Hs H2)
      as (r' & s' & Hr' & Hs' & ->).
    exists r', s'. split; [exact Hr' | split; [exact Hs'|]].
    rewrite lookup_insert_eq.
    rewrite !lookup_insert_ne by discriminate.
    rewrite !lookup_fmap, Hv, Hr, Hs. repeat split; reflexivity.
  - intros Hmiss.
    rewrite <- (L "v"), <- (L "r"), <- (L "s") in Hmiss by discriminate.
    rewrite (assemble_signature_missing _ Hmiss) in H2. injection H2 as <-.
    rewrite lookup_fmap, (L "signature") by discriminate. reflexivity.
  - intros k Ht Hr Hc Hh Hd Hs.
    rewrite (assemble_signature_other _ _ k H2 Hs).
    rewrite (L k) by assumption. reflexivity.
  - intros before after Ha. split; [|split].
    + intros k Hk. apply (assemble_signature_other _ _ k Ha Hk).
    + intros Hmiss. rewrite (assemble_signature_missing _ Hmiss) in Ha.
      injection Ha as <-. reflexivity.
    + intros v r s Hv Hr Hs.
      apply (assemble_signature_present _ _ v r s Hv Hr Hs Ha).
Qed.

Lemma signature_is_assembled_witness :
  exists kwargs' r' s',
    normalize ape_others None
      {[ "v" := PyInt 27; "r" := PyBytes [x01]; "s" := PyBytes [x02];
         "nonce" := PyInt 7 ]}
    = Ok (StaticFeeTransaction, kwargs') /\
    py_bytes (PyBytes [x01]) = Ok r' /\ py_bytes (PyBytes [x02]) = Ok s' /\
    kwargs' !! "signature" =
      Some (Signature {| sig_v := PyInt 27; sig_r := r'; sig_s := s' |}) /\
    kwargs' !! "v" = Some (Plain (PyInt 27)) /\
    kwargs' !! "r" = Some (Plain (PyBytes [x01])) /\
    kwargs' !! "s" = Some (Plain (PyBytes [x02])) /\
    kwargs' !! "nonce" = Some (Plain (PyInt 7)).
Proof.
  eexists.
  assert (H : normalize ape_others None
                {[ "v" := PyInt 27; "r" := PyBytes [x01];
                   "s" := PyBytes [x02]; "nonce" := PyInt 7 ]}
              = Ok (StaticFeeTransaction, _)) by reflexivity.
  destruct (signature_is_assembled _ _ _ _ _ H) as (P & _ & F & _).
  destruct (P (PyInt 27) (PyBytes [x01]) (PyBytes [x02])
              eq_refl eq_refl eq_refl)
    as (r' & s' & Hr & Hs & Hsig & Hv & Hr0 & Hs0).
  pose proof (F "nonce" ltac:(discriminate) ltac:(discriminate)
                ltac:(discriminate) ltac:(discriminate) ltac:(discriminate)
                ltac:(discriminate)) as Hnonce.
  exists r', s'.
  split; [exact H|]. split; [exact Hr|]. split; [exact Hs|].
  split; [exact Hsig|]. split; [exact Hv|]. split; [exact Hr0|].
  split; [exact Hs0 | exact Hnonce].
Defined.

(** [create_transaction({})] with no active provider: a static-fee
    transaction of type 0 with no confirmations to wait for, and no
    [data] or [signature]. *)
Example create_transaction_empty :
  exists txn,
    create_transaction ape_others None _ accept_all ∅ = Ok txn /\
    instance_class txn = StaticFeeTransaction /\
    instance_model txn =
      {[ "type" := Plain (PyInt 0);
         "required_confirmations" := Plain (PyInt 0) ]}.
Proof.
  eexists. split; [reflexivity | split; [reflexivity|]].
  apply map_eq. intros k. vm_compute. reflexivity.
Qed.

(** * Further properties *)

(** ** Which type inputs are accepted *)

Lemma add_0x_prefix_0x00 (p : string) :
  add_0x_prefix p = "0x00" -> p = "0x00" \/ p = "00".
Proof.
  unfold add_0x_prefix. destruct (is_0x_prefixed p).
  - intros ->. left. reflexivity.
  - change ("0x" ++ p) with (String "0" (String "x" p)).
    intros [= ->]. right. reflexivity.
Qed.

Lemma append_nil_l (s : string) : "" ++ s = s.
Proof. reflexivity. Qed.

Lemma append_cons (a : ascii) (s t : string) :
  String a s ++ t = String a (s ++ t).
Proof. reflexivity. Qed.

Lemma length_append (s t : string) :
  String.length (s ++ t) = (String.length s + String.length t)%nat.
Proof.
  induction s as [|a s IH]; [reflexivity|].
  rewrite append_cons. simpl. rewrite IH. reflexivity.
Qed.

Lemma rstrip_rep (c : ascii) (s : string) :
  exists k, s = rstrip (one c) s ++ rep k c.
Proof.
  induction s as [|a s [k IH]].
  - exists O. reflexivity.
  - simpl. destruct (String.eqb (rstrip (one c) s) "") eqn:Er; simpl.
    + apply String.eqb_eq in Er. rewrite Er, append_nil_l in IH.
      destruct (Ascii.eqb a c) eqn:Ea; simpl.
      * apply Ascii.eqb_eq in Ea. subst a. exists (S k).
        rewrite append_nil_l. simpl. rewrite <- IH. reflexivity.
      * exists k. rewrite Er, append_cons, append_nil_l, <- IH. reflexivity.
    + exists k. rewrite append_cons, <- IH. reflexivity.
Qed.

Lemma no_x_rep_0 (k : nat) : no_x (rep k "0") = true.
Proof. induction k; simpl; auto. Qed.

Lemma length_1 (s : string) :
  Nat.eqb (String.length s) 1 = true -> exists c, s = one c.
Proof.
  destruct s as [|c [|c2 s]]; simpl; try discriminate.
  intros _. exists c. reflexivity.
Qed.

Lemma rep_0_single (k : nat) (c : ascii) : rep k "0" = one c -> k = 1%nat.
Proof. destruct k as [|[|k]]; simpl; unfold one; congruence. Qed.

Lemma length_0 (s : string) : String.length s = 0%nat -> s = "".
Proof. destruct s; [reflexivity | discriminate]. Qed.

Lemma length_2 (s : string) :
  String.length s = 2%nat -> exists a b, s = String a (String b "").
Proof.
  destruct s as [|a [|b [|c s]]]; simpl; try discriminate.
  intros _. exists a, b. reflexivity.
Qed.

(** The strings that [pad_single] turns into "0x00" or "00". *)
Lemma pad_single_00 (s : string) :
  pad_single s = "0x00" \/ pad_single s = "00" ->
  s = "0" \/ s = "00" \/ s = "0x0" \/ s = "0x00".
Proof.
  unfold pad_single.
  destruct (Nat.eqb (String.length (replace_0x s)) 1) eqn:El.
  - destruct (length_1 _ El) as [c Ec]. rewrite Ec.
    destruct (rstrip_rep c s) as [k Hk].
    remember (rstrip (one c) s) as r eqn:Er. clear Er.
    intros [H | H]; pose proof (f_equal String.length H) as Hl;
      rewrite !length_append in Hl; simpl in Hl.
    + assert (Hr : String.length r = 2%nat) by lia.
      destruct (length_2 r Hr) as (a & b & ->).
      rewrite !append_cons, append_nil_l in H. unfold one in H.
      injection H as -> -> ->.
      rewrite Hk in Ec.
      change (replace_0x ("0x" ++ rep k "0")) with (replace_0x (rep k "0")) in Ec.
      rewrite (replace_0x_no_x _ (no_x_rep_0 k)) in Ec.
      rewrite (rep_0_single _ _ Ec) in Hk. auto.
    + assert (Hr : String.length r = 0%nat) by lia.
      apply length_0 in Hr. subst r.
      rewrite append_nil_l in H. unfold one in H.
      rewrite append_cons, append_nil_l in H.
      injection H as ->.
      rewrite Hk, append_nil_l in Ec.
      rewrite (replace_0x_no_x _ (no_x_rep_0 k)) in Ec.
      rewrite (rep_0_single _ _ Ec) in Hk. auto.
  - intros [-> | ->]; auto.
Qed.

Lemma type_string_0x00 (_type : PyVal) :
  tag_string _type = "0x00" ->
  type_string _type = "0" \/ type_string _type = "00" \/
  type_string _type = "0x0" \/ type_string _type = "0x00".
Proof.
  unfold tag_string. intros H. apply pad_single_00.
  destruct (add_0x_prefix_0x00 _ H); auto.
Qed.

(** [STATIC] has an integer value, and a lookup by string never finds
    it. *)
Lemma truthy_never_STATIC (others : list TransactionType) (_type : PyVal) :
  truthy _type = true -> _get_transaction_type others _type <> Ok STATIC.
Proof.
  intros Ht. rewrite (_get_transaction_type_truthy others _type Ht).
  destruct (TransactionType_of_value_cases others (tag_string _type))
    as [(m & -> & _ & Hv) | [-> _]]; [|discriminate].
  intros [= ->]. discriminate Hv.
Qed.

Lemma string_of_uint_0 (d : Decimal.uint) :
  NilZero.string_of_uint d = "0" -> d = Decimal.Nil \/ d = Decimal.D0 Decimal.Nil.
Proof.
  destruct d as [|d|d|d|d|d|d|d|d|d|d]; simpl; try discriminate; auto.
  destruct d; simpl; try discriminate. auto.
Qed.

Lemma str_int_0 (n : Z) : str_int n = "0" -> n = 0.
Proof.
  unfold str_int. intros H. rewrite <- (DecimalZ.of_to n).
  destruct (Z.to_int n) as [d|d]; simpl in H; [|discriminate].
  destruct (string_of_uint_0 d H) as [-> | ->]; reflexivity.
Qed.

Lemma bytes_hex_cons (x : byte) (b : list byte) :
  bytes_hex (x :: b) =
  String (hex_char (Byte.to_N x / 16))
    (String (hex_char (Byte.to_N x mod 16)) (bytes_hex b)).
Proof. reflexivity. Qed.

Lemma bytes_hex_empty (b : list byte) : bytes_hex b = "" -> b = [].
Proof. destruct b; [reflexivity | rewrite bytes_hex_cons; discriminate]. Qed.

Lemma hex_char_not_x (x : byte) : hex_char (Byte.to_N x mod 16) <> "x"%char.
Proof. destruct x; vm_compute; discriminate. Qed.

Lemma hex_chars_00 (x : byte) :
  hex_char (Byte.to_N x / 16) = "0"%char ->
  hex_char (Byte.to_N x mod 16) = "0"%char -> x = x00.
Proof.
  destruct x; vm_compute; intros H1 H2;
    first [reflexivity | discriminate H1 | discriminate H2].
Qed.

Lemma bytes_hex_STATIC (b : list byte) :
  bytes_hex b = "0" \/ bytes_hex b = "00" \/
  bytes_hex b = "0x0" \/ bytes_hex b = "0x00" -> b = [x00].
Proof.
  destruct b as [|x b']; [intros [H | [H | [H | H]]]; discriminate H|].
  rewrite bytes_hex_cons.
  intros [H | [H | [H | H]]].
  - discriminate H.
  - injection H as H1 H2 H3.
    rewrite (hex_chars_00 x H1 H2), (bytes_hex_empty b' H3). reflexivity.
  - injection H as _ H2 _. destruct (hex_char_not_x x H2).
  - injection H as _ H2 _. destruct (hex_char_not_x x H2).
Qed.

(** X1.  The type inputs that resolve to [STATIC] are exactly the falsy
    ones, whatever other members the enumeration has: no string, no
    non-empty byte string and no integer but 0 resolves to it.  The
    inputs for which the enumeration is asked for "0x00" are the byte
    string of one zero byte and the strings "0", "00", "0x0" and
    "0x00". *)
Theorem STATIC_exactly_on_STATIC_inputs
    (others : list TransactionType) (_type : PyVal) :
  (_get_transaction_type others _type = Ok STATIC <-> In _type STATIC_inputs) /\
  (truthy _type = true ->
   _get_transaction_type others _type =
     TransactionType_of_value others (tag_string _type) /\
   (tag_string _type = "0x00" <-> In _type zero_tag_inputs)).
Proof.
  split.
  - split.
    + intros H. destruct (truthy _type) eqn:Ht.
      * destruct (truthy_never_STATIC others _type Ht H).
      * apply falsy_values in Ht as [-> | [-> | [-> | ->]]]; simpl; auto.
    + unfold STATIC_inputs. simpl.
      intros [<- | [<- | [<- | [<- | []]]]]; reflexivity.
  - intros Ht. split; [apply _get_transaction_type_truthy; exact Ht|].
    split.
    + intros H. pose proof (type_string_0x00 _type H) as Hs.
      destruct _type as [|n|s|b]; simpl in Hs.
      * discriminate Ht.
      * exfalso. rewrite int_tag_string_is_decimal in H.
        injection H as H. apply str_int_0 in H. subst n. discriminate Ht.
      * destruct Hs as [-> | [-> | [-> | ->]]]; simpl; auto 10.
      * rewrite (bytes_hex_STATIC b Hs). simpl. auto 10.
    + unfold zero_tag_inputs. simpl.
      intros [<- | [<- | [<- | [<- | [<- | []]]]]]; reflexivity.
Qed.

Lemma STATIC_exactly_on_STATIC_inputs_witness :
  _get_transaction_type ape_others (PyStr "0x0") =
    TransactionType_of_value ape_others (tag_string (PyStr "0x0")) /\
  (tag_string (PyStr "0x0") = "0x00" <-> In (PyStr "0x0") zero_tag_inputs).
Proof.
  apply (proj2 (STATIC_exactly_on_STATIC_inputs ape_others (PyStr "0x0"))).
  reflexivity.
Defined.

(** ** Errors raised before any field is looked at *)

Lemma create_transaction_type_error others ap (Model : Type)
    (parse_obj : TransactionClass -> gmap string Field -> result Model)
    (kwargs : gmap string PyVal) (e : exn) :
  _get_transaction_type others (kwargs_get "type" kwargs) = Raise e ->
  create_transaction others ap Model parse_obj kwargs = Raise e.
Proof.
  intros H. unfold create_transaction, normalize. rewrite H. reflexivity.
Qed.

Lemma create_transaction_unsupported others ap (Model : Type)
    (parse_obj : TransactionClass -> gmap string Field -> result Model)
    (kwargs : gmap string PyVal) (tag : TransactionType) :
  _get_transaction_type others (kwargs_get "type" kwargs) = Ok tag ->
  tag <> STATIC ->
  create_transaction others ap Model parse_obj kwargs =
    Raise (ApePolygonZkEVMError (unsupported_message tag)).
Proof.
  intros H Hne. unfold create_transaction, normalize.
  rewrite H, bind_of_Ok, (_get_transaction_cls_other tag Hne). reflexivity.
Qed.

(** X2.  A non-zero integer under [type] never yields a transaction:
    [create_transaction] raises the enumeration's [ValueError] for "0x0"
    and the decimal digits, or, when a member has that value, the
    unsupported-type error for that member. *)
Theorem nonzero_int_type_is_rejected others ap (Model : Type)
    (parse_obj : TransactionClass -> gmap string Field -> result Model)
    (kwargs : gmap string PyVal) (n : Z) :
  kwargs !! "type" = Some (PyInt n) -> n <> 0 ->
  create_transaction others ap Model parse_obj kwargs =
    Raise (ValueError (NotAValidTransactionType ("0x0" ++ str_int n))) \/
  exists tag, tag ∈ others /\ value tag = PyStr ("0x0" ++ str_int n) /\
    create_transaction others ap Model parse_obj kwargs =
      Raise (ApePolygonZkEVMError (unsupported_message tag)).
Proof.
  intros Hk Hn.
  assert (Ht : truthy (PyInt n) = true)
    by (simpl; apply negb_true_iff, Z.eqb_neq; exact Hn).
  pose proof (_get_transaction_type_truthy others (PyInt n) Ht) as Hg.
  rewrite int_tag_string_is_decimal in Hg.
  rewrite <- (kwargs_get_lookup _ _ _ Hk) in Hg.
  destruct (TransactionType_of_value_cases others ("0x0" ++ str_int n))
    as [(m & Hm & Hin & Hv) | [Hr _]].
  - right. exists m.
    assert (Hne : m <> STATIC) by (intros ->; discriminate Hv).
    split; [|split; [exact Hv|]].
    + apply elem_of_cons in Hin as [-> | Hin]; [contradiction | exact Hin].
    + apply create_transaction_unsupported; [|exact Hne].
      rewrite Hg. exact Hm.
  - left. apply create_transaction_type_error. rewrite Hg. exact Hr.
Qed.

Lemma nonzero_int_type_is_rejected_witness :
  create_transaction ape_others None _ accept_all {[ "type" := PyInt 2 ]} =
    Raise (ValueError (NotAValidTransactionType ("0x0" ++ str_int 2))) \/
  exists tag, tag ∈ ape_others /\ value tag = PyStr ("0x0" ++ str_int 2) /\
    create_transaction ape_others None _ accept_all {[ "type" := PyInt 2 ]} =
      Raise (ApePolygonZkEVMError (unsupported_message tag)).
Proof.
  apply (nonzero_int_type_is_rejected ape_others None _ accept_all
           {[ "type" := PyInt 2 ]} 2); [reflexivity | lia].
Defined.

(** X3.  The type is settled before any other field is read: an exception
    of type resolution, and the unsupported-type error of a tag other than
    [STATIC], are what [create_transaction] raises whatever [chainId],
    [v], [r], [s] and the class would have done. *)
Theorem type_errors_come_first others ap (Model : Type)
    (parse_obj : TransactionClass -> gmap string Field -> result Model)
    (kwargs : gmap string PyVal) :
  (forall e,
     _get_transaction_type others (kwargs_get "type" kwargs) = Raise e ->
     create_transaction others ap Model parse_obj kwargs = Raise e) /\
  (forall tag,
     _get_transaction_type others (kwargs_get "type" kwargs) = Ok tag ->
     tag <> STATIC ->
     create_transaction others ap Model parse_obj kwargs =
       Raise (ApePolygonZkEVMError
                ("Transaction type 'TransactionType." ++ name tag
                   ++ "' not supported."))).
Proof.
  split.
  - intros e H. apply create_transaction_type_error. exact H.
  - intros tag H Hne.
    rewrite (create_transaction_unsupported _ _ _ _ _ tag H Hne).
    reflexivity.
Qed.

Lemma type_errors_come_first_witness :
  create_transaction ape_others None _ accept_all
    {[ "type" := PyStr "0x02"; "chainId" := PyStr "zz" ]} =
  Raise (ValueError (NotAValidTransactionType "0x02")).
Proof.
  apply (proj1 (type_errors_come_first ape_others None _ accept_all
                  {[ "type" := PyStr "0x02"; "chainId" := PyStr "zz" ]})).
  reflexivity.
Defined.

(** ** The three kinds of type input agree *)

Lemma byte_of_cases (n : Z) :
  1 <= n <= 9 ->
  (n = 1 /\ byte_of n = x01) \/ (n = 2 /\ byte_of n = x02) \/
  (n = 3 /\ byte_of n = x03) \/ (n = 4 /\ byte_of n = x04) \/
  (n = 5 /\ byte_of n = x05) \/ (n = 6 /\ byte_of n = x06) \/
  (n = 7 /\ byte_of n = x07) \/ (n = 8 /\ byte_of n = x08) \/
  (n = 9 /\ byte_of n = x09).
Proof.
  intros H. destruct (small_int_cases n H)
    as [->|[->|[->|[->|[->|[->|[->|[->| ->]]]]]]]]; auto 20.
Qed.

(** X4.  For 1 to 9 the integer, the one-byte string holding it and its
    decimal digit as a string, with or without "0x", resolve alike. *)
Theorem int_bytes_str_agree (others : list TransactionType) (n : Z) :
  1 <= n <= 9 ->
  _get_transaction_type others (PyBytes [byte_of n]) =
    _get_transaction_type others (PyInt n) /\
  _get_transaction_type others (PyStr (str_int n)) =
    _get_transaction_type others (PyInt n) /\
  _get_transaction_type others (PyStr ("0x" ++ str_int n)) =
    _get_transaction_type others (PyInt n).
Proof.
  intros H.
  destruct (byte_of_cases n H)
    as [[-> ->]|[[-> ->]|[[-> ->]|[[-> ->]|[[-> ->]|[[-> ->]|[[-> ->]|
        [[-> ->]|[-> ->]]]]]]]]];
    repeat split; reflexivity.
Qed.

Lemma int_bytes_str_agree_witness :
  _get_transaction_type ape_others (PyBytes [byte_of 2]) =
    _get_transaction_type ape_others (PyInt 2).
Proof.
  refine (proj1 (int_bytes_str_agree ape_others 2 _)). lia.
Defined.

(** ** Byte strings and longer strings *)

Lemma no_x_append (s t : string) :
  no_x s = true -> no_x t = true -> no_x (s ++ t) = true.
Proof.
  intros Hs Ht. induction s as [|a s IH]; [exact Ht|].
  rewrite append_cons. simpl in *.
  apply andb_true_iff in Hs as [-> Hs]. simpl. auto.
Qed.

Lemma no_x_hex2_byte (x : byte) : no_x (hex2 (Byte.to_N x)) = true.
Proof. destruct x; reflexivity. Qed.

Lemma no_x_bytes_hex (b : list byte) : no_x (bytes_hex b) = true.
Proof.
  induction b as [|x b IH]; [reflexivity|].
  change (bytes_hex (x :: b)) with (hex2 (Byte.to_N x) ++ bytes_hex b).
  apply no_x_append; [apply no_x_hex2_byte | exact IH].
Qed.

Lemma length_bytes_hex (b : list byte) :
  String.length (bytes_hex b) = (2 * List.length b)%nat.
Proof.
  induction b as [|x b IH]; [reflexivity|].
  rewrite bytes_hex_cons. simpl String.length. rewrite IH. simpl. lia.
Qed.

Lemma is_char_eqb (b p : ascii) : is_char b (one p) = Ascii.eqb p b.
Proof.
  unfold is_char, one. simpl. rewrite (Ascii.eqb_sym p b).
  destruct (Ascii.eqb b p); reflexivity.
Qed.

Lemma prefix_two (p1 p2 a b : ascii) (s : string) :
  String.prefix (String p1 (one p2)) (String a (String b s)) =
  Ascii.eqb p1 a && Ascii.eqb p2 b.
Proof.
  assert (E : String.prefix (String p1 (one p2)) (String a (String b s)) =
              if Ascii.ascii_dec p1 a
              then if Ascii.ascii_dec p2 b then true else false
              else false)
    by (destruct s; reflexivity).
  rewrite E.
  destruct (Ascii.ascii_dec p1 a) as [->|n1].
  - rewrite Ascii.eqb_refl.
    destruct (Ascii.ascii_dec p2 b) as [->|n2].
    + rewrite Ascii.eqb_refl. reflexivity.
    + apply Ascii.eqb_neq in n2. rewrite n2. reflexivity.
  - apply Ascii.eqb_neq in n1. rewrite n1. reflexivity.
Qed.

(** A string without "x" or "X" is not prefixed. *)
Lemma no_x_not_prefixed (s : string) : no_x s = true -> is_0x_prefixed s = false.
Proof.
  unfold is_0x_prefixed.
  destruct s as [|a [|b s]]; intros H.
  - reflexivity.
  - destruct a as [[] [] [] [] [] [] [] []]; reflexivity.
  - simpl in H. apply andb_true_iff in H as [_ H].
    apply andb_true_iff in H as [H _]. apply andb_true_iff in H as [Hx HX].
    apply negb_true_iff in Hx, HX.
    change "x" with (one "x") in Hx. change "X" with (one "X") in HX.
    rewrite is_char_eqb in Hx, HX.
    change "0x" with (String "0" (one "x")).
    change "0X" with (String "0" (one "X")).
    rewrite !prefix_two, Hx, HX, !andb_false_r. reflexivity.
Qed.

(** A string without "x" that is not one character long is looked up with
    "0x" in front, and with "0x" in front already it is looked up as it
    is. *)
Lemma tag_string_no_x (s : string) :
  no_x s = true -> String.length s <> 1%nat ->
  tag_string (PyStr s) = "0x" ++ s /\ tag_string (PyStr ("0x" ++ s)) = "0x" ++ s.
Proof.
  intros Hx Hl. unfold tag_string, type_string, pad_single.
  assert (El : Nat.eqb (String.length s) 1 = false)
    by (apply Nat.eqb_neq; exact Hl).
  split.
  - rewrite (replace_0x_no_x s Hx), El.
    unfold add_0x_prefix. rewrite (no_x_not_prefixed s Hx). reflexivity.
  - change (replace_0x ("0x" ++ s)) with (replace_0x s).
    rewrite (replace_0x_no_x s Hx), El.
    unfold add_0x_prefix.
    assert (P : is_0x_prefixed ("0x" ++ s) = true) by (destruct s; reflexivity).
    rewrite P. reflexivity.
Qed.

(** X5.  A non-empty byte string is looked up by "0x" and its lower-case
    hex digits, all of them: nothing is padded or cut. *)
Theorem bytes_type_is_looked_up_by_hex
    (others : list TransactionType) (b : list byte) :
  b <> [] ->
  tag_string (PyBytes b) = "0x" ++ bytes_hex b /\
  _get_transaction_type others (PyBytes b) =
    TransactionType_of_value others ("0x" ++ bytes_hex b).
Proof.
  intros Hb.
  assert (Hl : String.length (bytes_hex b) <> 1%nat)
    by (rewrite length_bytes_hex; lia).
  destruct (tag_string_no_x (bytes_hex b) (no_x_bytes_hex b) Hl) as [Ht _].
  change (tag_string (PyStr (bytes_hex b))) with (tag_string (PyBytes b)) in Ht.
  split; [exact Ht|].
  rewrite _get_transaction_type_truthy, Ht; [reflexivity|].
  destruct b; [contradiction | reflexivity].
Qed.

Lemma bytes_type_is_looked_up_by_hex_witness :
  [x02] <> [] /\
  _get_transaction_type ape_others (PyBytes [x02]) =
    TransactionType_of_value ape_others ("0x" ++ bytes_hex [x02]).
Proof.
  split; [discriminate|].
  apply (proj2 (bytes_type_is_looked_up_by_hex ape_others [x02]
                  ltac:(discriminate))).
Defined.

(** X6.  For a string of two or more characters without "x" or "X" (hex
    digits, say) the prefix "0x" makes no difference: with it and without
    it the string resolves to the same result. *)
Theorem prefix_is_optional (others : list TransactionType) (s : string) :
  no_x s = true -> (2 <= String.length s)%nat ->
  tag_string (PyStr s) = "0x" ++ s /\
  _get_transaction_type others (PyStr ("0x" ++ s)) =
    _get_transaction_type others (PyStr s).
Proof.
  intros Hx Hl.
  destruct (tag_string_no_x s Hx) as [H1 H2]; [lia|].
  split; [exact H1|].
  destruct s as [|a s]; [simpl in Hl; lia|].
  rewrite !_get_transaction_type_truthy by reflexivity.
  rewrite H1, H2. reflexivity.
Qed.

Lemma prefix_is_optional_witness :
  _get_transaction_type ape_others (PyStr "0x02") =
    _get_transaction_type ape_others (PyStr "02").
Proof.
  refine (proj2 (prefix_is_optional ape_others "02" _ _));
    [reflexivity | simpl; lia].
Defined.

(** X7.  The padding is for the lower-case prefix only: a hex digit after
    "0X" is looked up as it stands and does not resolve to [STATIC], while
    after "0x" it is looked up padded, as "0x0" and the digit. *)
Theorem upper_case_prefix_is_not_padded
    (others : list TransactionType) (c : ascii) :
  is_hex_digit c = true ->
  tag_string (PyStr ("0X" ++ one c)) = "0X" ++ one c /\
  _get_transaction_type others (PyStr ("0X" ++ one c)) <> Ok STATIC /\
  _get_transaction_type others (PyStr ("0x" ++ one c)) =
    TransactionType_of_value others ("0x0" ++ one c).
Proof.
  intros Hc.
  assert (Ht : tag_string (PyStr ("0X" ++ one c)) = "0X" ++ one c).
  { destruct c as [[] [] [] [] [] [] [] []];
      first [discriminate Hc | reflexivity]. }
  split; [exact Ht | split].
  - apply truthy_never_STATIC. reflexivity.
  - destruct (single_digit_strings c Hc) as (_ & H2 & _).
    rewrite _get_transaction_type_truthy by reflexivity.
    rewrite H2. reflexivity.
Qed.

Lemma upper_case_prefix_is_not_padded_witness :
  tag_string (PyStr "0X0") = "0X0" /\
  _get_transaction_type ape_others (PyStr "0X0") <> Ok STATIC /\
  _get_transaction_type ape_others (PyStr "0x0") =
    TransactionType_of_value ape_others "0x00".
Proof.
  apply (upper_case_prefix_is_not_padded ape_others "0" eq_refl).
Defined.

(** ** The enumeration is only asked for prefixed strings *)

Lemma add_0x_prefix_prefixed (s : string) :
  is_0x_prefixed (add_0x_prefix s) = true.
Proof.
  unfold add_0x_prefix. destruct (is_0x_prefixed s) eqn:E; [exact E|].
  destruct s; reflexivity.
Qed.

(** X8.  The enumeration is only ever asked for a string that starts with
    "0x" or "0X", whether the lookup finds a member or raises: for every
    truthy input the string looked up has the prefix, adding the prefix
    again changes nothing, and the result is a member other than [STATIC]
    with that string as its value or the [ValueError] that names that
    string. *)
Theorem resolved_value_is_prefixed
    (others : list TransactionType) (_type : PyVal) :
  truthy _type = true ->
  is_0x_prefixed (tag_string _type) = true /\
  add_0x_prefix (tag_string _type) = tag_string _type /\
  ((exists m, _get_transaction_type others _type = Ok m /\
              m ∈ others /\ value m = PyStr (tag_string _type)) \/
   _get_transaction_type others _type =
     Raise (ValueError (NotAValidTransactionType (tag_string _type)))).
Proof.
  intros Ht.
  pose proof (add_0x_prefix_prefixed (pad_single (type_string _type))) as P.
  fold (tag_string _type) in P.
  split; [exact P | split].
  - unfold add_0x_prefix at 1. rewrite P. reflexivity.
  - rewrite (_get_transaction_type_truthy others _type Ht).
    destruct (TransactionType_of_value_cases others (tag_string _type))
      as [(m & Hm & Hin & Hv) | [Hr _]]; [left | right; exact Hr].
    exists m. split; [exact Hm | split; [|exact Hv]].
    apply elem_of_cons in Hin as [-> | Hin]; [discriminate Hv | exact Hin].
Qed.

Lemma resolved_value_is_prefixed_witness :
  is_0x_prefixed (tag_string (PyBytes [x02])) = true /\
  add_0x_prefix (tag_string (PyBytes [x02])) = tag_string (PyBytes [x02]) /\
  ((exists m, _get_transaction_type ape_others (PyBytes [x02]) = Ok m /\
              m ∈ ape_others /\ value m = PyStr (tag_string (PyBytes [x02]))) \/
   _get_transaction_type ape_others (PyBytes [x02]) =
     Raise (ValueError (NotAValidTransactionType (tag_string (PyBytes [x02]))))).
Proof.
  apply (resolved_value_is_prefixed ape_others (PyBytes [x02])); reflexivity.
Defined.

(** ** The mapping before the signature step *)

Lemma lookup_fmap_Plain (m : gmap string PyVal) (k : string) (x : PyVal) :
  (Plain <$> m) !! k = Some (Plain x) <-> m !! k = Some x.
Proof.
  rewrite lookup_fmap. destruct (m !! k) as [y|]; simpl; split;
    intros H; try discriminate; [injection H as -> | injection H as ->];
    reflexivity.
Qed.

Lemma lookup_fmap_Plain_None (m : gmap string PyVal) (k : string) :
  (Plain <$> m) !! k = None <-> m !! k = None.
Proof. rewrite lookup_fmap. destruct (m !! k); simpl; split; congruence. Qed.

Lemma lookup_fmap_Plain_Signature
    (m : gmap string PyVal) (k : string) (g : TransactionSignature) :
  (Plain <$> m) !! k <> Some (Signature g).
Proof. rewrite lookup_fmap. destruct (m !! k); simpl; congruence. Qed.

Lemma convert_chain_id_not_str (kwargs : gmap string PyVal) :
  (forall s, kwargs !! "chainId" <> Some (PyStr s)) ->
  convert_chain_id kwargs = Ok kwargs.
Proof.
  intros H. unfold convert_chain_id, kwargs_get.
  destruct (kwargs !! "chainId") as [[| | s |]|] eqn:E; try reflexivity.
  destruct (H s). reflexivity.
Qed.

(** The mapping after lines 65-79, seen from the caller's mapping. *)
Lemma before_hash_lookup ap (kwargs kwargs1 : gmap string PyVal) (k : string) :
  convert_chain_id
    (default_confirmations ap (<["type" := value STATIC]> kwargs))
  = Ok kwargs1 ->
  k <> "type" -> k <> "required_confirmations" -> k <> "chainId" ->
  kwargs1 !! k = kwargs !! k.
Proof.
  intros H Ht Hr Hc.
  rewrite (convert_chain_id_other _ _ k H Hc).
  rewrite default_confirmations_other by exact Hr.
  apply lookup_insert_ne. congruence.
Qed.

Lemma before_chain_id_lookup ap (kwargs : gmap string PyVal) :
  default_confirmations ap (<["type" := value STATIC]> kwargs)
    !! "chainId" = kwargs !! "chainId".
Proof.
  rewrite default_confirmations_other by discriminate.
  apply lookup_insert_ne. discriminate.
Qed.

(** With the type resolved to [STATIC] and the chain id accepted, what is
    left of [normalize] is the signature step. *)
Lemma normalize_until_signature others ap (kwargs : gmap string PyVal) :
  _get_transaction_type others (kwargs_get "type" kwargs) = Ok STATIC ->
  chain_id_accepted kwargs ->
  exists kwargs1,
    convert_chain_id
      (default_confirmations ap (<["type" := value STATIC]> kwargs))
    = Ok kwargs1 /\
    normalize others ap kwargs =
      (kwargs' ← assemble_signature (rename_hash kwargs1);
       Ok (StaticFeeTransaction, kwargs')).
Proof.
  intros Ht Hc.
  pose proof (before_chain_id_lookup ap kwargs) as L.
  assert (Hconv : exists kwargs1,
             convert_chain_id
               (default_confirmations ap
                  (<["type" := value STATIC]> kwargs)) = Ok kwargs1).
  { destruct (kwargs !! "chainId") as [[| | s |]|] eqn:E;
      try (eexists; apply convert_chain_id_not_str;
           intros s'; rewrite L; discriminate).
    rewrite (convert_chain_id_str _ s L).
    destruct (parse_int16 s) as [n|] eqn:Hp; [eexists; reflexivity|].
    destruct (Hc s E Hp). }
  destruct Hconv as [kwargs1 H1]. exists kwargs1. split; [exact H1|].
  unfold normalize.
  rewrite Ht, bind_of_Ok, _get_transaction_cls_STATIC, bind_of_Ok.
  rewrite H1. reflexivity.
Qed.

(** X9.  The mapping given to the class never has a [hash] key: the value
    under [hash] is moved to [data], replacing what the caller gave under
    [data]; without [hash], [data] is as the caller gave it. *)
Theorem hash_becomes_data others ap
    (kwargs : gmap string PyVal) (cls : TransactionClass)
    (kwargs' : gmap string Field) :
  normalize others ap kwargs = Ok (cls, kwargs') ->
  kwargs' !! "hash" = None /\
  (forall h, kwargs !! "hash" = Some h -> kwargs' !! "data" = Some (Plain h)) /\
  (kwargs !! "hash" = None -> kwargs' !! "data" = Plain <$> kwargs !! "data").
Proof.
  intros Hn.
  destruct (normalize_Ok _ _ _ _ _ Hn) as (kwargs1 & _ & _ & H1 & H2).
  pose proof (before_hash_lookup ap kwargs kwargs1 "hash" H1) as Lh.
  pose proof (before_hash_lookup ap kwargs kwargs1 "data" H1) as Ld.
  rewrite (assemble_signature_other _ _ "hash" H2) by discriminate.
  rewrite (assemble_signature_other _ _ "data" H2) by discriminate.
  specialize (Lh ltac:(discriminate) ltac:(discriminate) ltac:(discriminate)).
  specialize (Ld ltac:(discriminate) ltac:(discriminate) ltac:(discriminate)).
  unfold rename_hash. rewrite Lh.
  destruct (kwargs !! "hash") as [h|] eqn:E.
  - split; [|split].
    + rewrite lookup_insert_ne by discriminate.
      rewrite lookup_delete_eq. reflexivity.
    + intros h' [= <-]. rewrite lookup_insert_eq. reflexivity.
    + discriminate.
  - split; [|split].
    + rewrite Lh. reflexivity.
    + discriminate.
    + intros _. rewrite Ld. reflexivity.
Qed.

Lemma hash_becomes_data_witness :
  exists kwargs',
    normalize ape_others None
      {[ "hash" := PyStr "0xdeadbeef"; "data" := PyStr "0x00" ]}
    = Ok (StaticFeeTransaction, kwargs') /\
    kwargs' !! "hash" = None /\
    kwargs' !! "data" = Some (Plain (PyStr "0xdeadbeef")).
Proof.
  eexists.
  assert (H : normalize ape_others None
                {[ "hash" := PyStr "0xdeadbeef"; "data" := PyStr "0x00" ]}
              = Ok (StaticFeeTransaction, _)) by reflexivity.
  destruct (hash_becomes_data _ _ _ _ _ H) as (H1 & H2 & _).
  split; [exact H | split; [exact H1 | apply H2; reflexivity]].
Defined.

(** X10.  A [chainId] that is not a string (an integer, a byte string,
    [None]) or is absent is given to the class as it is. *)
Theorem non_string_chain_id_is_kept others ap
    (kwargs : gmap string PyVal) (cls : TransactionClass)
    (kwargs' : gmap string Field) :
  normalize others ap kwargs = Ok (cls, kwargs') ->
  (forall s, kwargs !! "chainId" <> Some (PyStr s)) ->
  kwargs' !! "chainId" = Plain <$> kwargs !! "chainId".
Proof.
  intros Hn Hs.
  destruct (normalize_Ok _ _ _ _ _ Hn) as (kwargs1 & _ & _ & H1 & H2).
  rewrite (assemble_signature_other _ _ _ H2) by discriminate.
  rewrite rename_hash_other by discriminate.
  rewrite convert_chain_id_not_str in H1.
  - injection H1 as <-. rewrite before_chain_id_lookup. reflexivity.
  - intros s. rewrite before_chain_id_lookup. apply Hs.
Qed.

Lemma non_string_chain_id_is_kept_witness :
  exists kwargs',
    normalize ape_others None {[ "chainId" := PyBytes [x45] ]}
    = Ok (StaticFeeTransaction, kwargs') /\
    kwargs' !! "chainId" = Some (Plain (PyBytes [x45])).
Proof.
  eexists.
  assert (H : normalize ape_others None {[ "chainId" := PyBytes [x45] ]}
              = Ok (StaticFeeTransaction, _)) by reflexivity.
  split; [exact H|].
  refine (eq_trans (non_string_chain_id_is_kept _ _ _ _ _ H _) eq_refl).
  intros s. discriminate.
Defined.

(** ** Which keys the class receives *)

Lemma default_confirmations_keys ap (kwargs : gmap string PyVal) (k : string) :
  is_Some (default_confirmations ap kwargs !! k) <->
  k = "required_confirmations" \/ is_Some (kwargs !! k).
Proof.
  destruct (decide (k = "required_confirmations")) as [->|Hk].
  - split; [auto|]. intros _. unfold default_confirmations.
    destruct (kwargs !! "required_confirmations") as [[]|] eqn:E;
      rewrite ?lookup_insert_eq, ?E; eauto.
  - rewrite default_confirmations_other by exact Hk. tauto.
Qed.

Lemma convert_chain_id_keys (kwargs kwargs1 : gmap string PyVal) (k : string) :
  convert_chain_id kwargs = Ok kwargs1 ->
  is_Some (kwargs1 !! k) <-> is_Some (kwargs !! k).
Proof.
  intros H. destruct (decide (k = "chainId")) as [->|Hk].
  - unfold convert_chain_id, kwargs_get in H.
    destruct (kwargs !! "chainId") as [[| | s |]|] eqn:E;
      try (injection H as <-; rewrite E; tauto).
    apply bind_Ok in H as (n & _ & H). injection H as <-.
    rewrite lookup_insert_eq. split; eauto.
  - rewrite (convert_chain_id_other _ _ k H Hk). tauto.
Qed.

Lemma rename_hash_keys (kwargs : gmap string PyVal) (k : string) :
  is_Some (rename_hash kwargs !! k) <->
  (k = "data" /\ is_Some (kwargs !! "hash")) \/
  (k <> "hash" /\ is_Some (kwargs !! k)).
Proof.
  unfold rename_hash. destruct (kwargs !! "hash") as [h|] eqn:E.
  - destruct (decide (k = "data")) as [->|Hd].
    + rewrite lookup_insert_eq. split; eauto.
    + rewrite lookup_insert_ne by congruence.
      destruct (decide (k = "hash")) as [->|Hh].
      * rewrite lookup_delete_eq. split.
        -- intros [x Hx]. discriminate Hx.
        -- intros [[? _] | [? _]]; congruence.
      * rewrite lookup_delete_ne by congruence. split; [auto|].
        intros [[? _] | [_ ?]]; [congruence | assumption].
  - split.
    + intros H. right. split; [|exact H].
      intros ->. rewrite E in H. destruct H as [x Hx]. discriminate Hx.
    + intros [[_ [x Hx]] | [_ H]]; [discriminate Hx | exact H].
Qed.

Lemma assemble_signature_keys
    (kwargs : gmap string PyVal) (kwargs' : gmap string Field) (k : string) :
  assemble_signature kwargs = Ok kwargs' ->
  is_Some (kwargs' !! k) <->
  (k = "signature" /\ is_Some (kwargs !! "v") /\ is_Some (kwargs !! "r") /\
   is_Some (kwargs !! "s")) \/
  is_Some (kwargs !! k).
Proof.
  intros H. destruct (decide (k = "signature")) as [->|Hk].
  - destruct (kwargs !! "v") as [v|] eqn:Ev;
      [destruct (kwargs !! "r") as [r|] eqn:Er;
       [destruct (kwargs !! "s") as [s|] eqn:Es|]|].
    + destruct (assemble_signature_present _ _ v r s Ev Er Es H)
        as (r' & s' & _ & _ & ->).
      rewrite lookup_insert_eq. split; eauto 10.
    + rewrite assemble_signature_missing in H by auto. injection H as <-.
      rewrite lookup_fmap, fmap_is_Some. split; [auto|].
      intros [(_ & _ & _ & [x Hx]) | H']; [discriminate Hx | exact H'].
    + rewrite assemble_signature_missing in H by auto. injection H as <-.
      rewrite lookup_fmap, fmap_is_Some. split; [auto|].
      intros [(_ & _ & [x Hx] & _) | H']; [discriminate Hx | exact H'].
    + rewrite assemble_signature_missing in H by auto. injection H as <-.
      rewrite lookup_fmap, fmap_is_Some. split; [auto|].
      intros [(_ & [x Hx] & _) | H']; [discriminate Hx | exact H'].
  - rewrite (assemble_signature_other _ _ k H Hk), fmap_is_Some.
    split; [auto|]. intros [[? _] | H']; [congruence | exact H'].
Qed.

(** X11.  The keys of the mapping given to the class: [type] and
    [required_confirmations] always; [data] when the caller gave [hash];
    [signature] when the caller gave [v], [r] and [s]; and every key of
    the caller's other than [hash].  No other key is added and no other
    key is dropped. *)
Theorem keys_given_to_the_class others ap
    (kwargs : gmap string PyVal) (cls : TransactionClass)
    (kwargs' : gmap string Field) (k : string) :
  normalize others ap kwargs = Ok (cls, kwargs') ->
  is_Some (kwargs' !! k) <->
  k = "type" \/ k = "required_confirmations" \/
  (k = "data" /\ is_Some (kwargs !! "hash")) \/
  (k = "signature" /\ is_Some (kwargs !! "v") /\ is_Some (kwargs !! "r") /\
   is_Some (kwargs !! "s")) \/
  (k <> "hash" /\ is_Some (kwargs !! k)).
Proof.
  intros Hn.
  destruct (normalize_Ok _ _ _ _ _ Hn) as (kwargs1 & _ & _ & H1 & H2).
  assert (K1 : forall j, is_Some (kwargs1 !! j) <->
                         j = "type" \/ j = "required_confirmations" \/
                         is_Some (kwargs !! j)).
  { intros j. rewrite (convert_chain_id_keys _ _ j H1).
    rewrite default_confirmations_keys.
    destruct (decide (j = "type")) as [->|Hj].
    - rewrite lookup_insert_eq. split; eauto.
    - rewrite lookup_insert_ne by congruence. tauto. }
  assert (K4 : forall j, j <> "type" -> j <> "required_confirmations" ->
                         j <> "hash" -> j <> "data" ->
                         is_Some (rename_hash kwargs1 !! j) <->
                         is_Some (kwargs !! j)).
  { intros j ? ? ? ?. rewrite rename_hash_keys, (K1 j). tauto. }
  rewrite (assemble_signature_keys _ _ k H2).
  rewrite (K4 "v"), (K4 "r"), (K4 "s") by discriminate.
  rewrite rename_hash_keys, !K1.
  split.
  - intros [H | [[-> [[= ] | [[= ] | H]]] | [Hh [-> | [-> | H]]]]]; auto 10.
  - intros [-> | [-> | [[-> H] | [H | [Hh H]]]]]; auto 10.
Qed.

Lemma keys_given_to_the_class_witness :
  exists kwargs',
    normalize ape_others None {[ "hash" := PyStr "0xdeadbeef" ]}
    = Ok (StaticFeeTransaction, kwargs') /\
    is_Some (kwargs' !! "data").
Proof.
  eexists.
  assert (H : normalize ape_others None {[ "hash" := PyStr "0xdeadbeef" ]}
              = Ok (StaticFeeTransaction, _)) by reflexivity.
  split; [exact H|].
  apply (keys_given_to_the_class _ _ _ _ _ "data" H).
  right. right. left. split; [reflexivity | eexists; reflexivity].
Defined.

(** X12.  Every field other than [type], [required_confirmations],
    [chainId], [hash], [data] and [signature] reaches the class with the
    value the caller gave, and is absent if the caller gave none. *)
Theorem other_fields_pass_through others ap
    (kwargs : gmap string PyVal) (cls : TransactionClass)
    (kwargs' : gmap string Field) (k : string) :
  normalize others ap kwargs = Ok (cls, kwargs') ->
  k ∉ ["type"; "required_confirmations"; "chainId"; "hash"; "data";
       "signature"] ->
  kwargs' !! k = Plain <$> kwargs !! k.
Proof.
  intros Hn Hk.
  assert (Ht : k <> "type") by (intros ->; apply Hk; set_solver).
  assert (Hr : k <> "required_confirmations") by (intros ->; apply Hk; set_solver).
  assert (Hc : k <> "chainId") by (intros ->; apply Hk; set_solver).
  assert (Hh : k <> "hash") by (intros ->; apply Hk; set_solver).
  assert (Hd : k <> "data") by (intros ->; apply Hk; set_solver).
  assert (Hs : k <> "signature") by (intros ->; apply Hk; set_solver).
  destruct (normalize_Ok _ _ _ _ _ Hn) as (kwargs1 & _ & _ & H1 & H2).
  rewrite (assemble_signature_other _ _ k H2 Hs).
  rewrite (rename_hash_other _ k Hh Hd).
  rewrite (before_hash_lookup ap kwargs kwargs1 k H1 Ht Hr Hc). reflexivity.
Qed.

Lemma other_fields_pass_through_witness :
  exists kwargs',
    normalize ape_others None {[ "nonce" := PyInt 7 ]}
    = Ok (StaticFeeTransaction, kwargs') /\
    kwargs' !! "nonce" = Some (Plain (PyInt 7)).
Proof.
  eexists.
  assert (H : normalize ape_others None {[ "nonce" := PyInt 7 ]}
              = Ok (StaticFeeTransaction, _)) by reflexivity.
  split; [exact H|].
  refine (eq_trans (other_fields_pass_through _ _ _ _ _ "nonce" H _) eq_refl).
  intros Hin. repeat (apply elem_of_cons in Hin as [Hin | Hin];
                      [discriminate Hin|]).
  inversion Hin.
Defined.

(** ** When normalisation succeeds *)

(** X13.  The lines before the class is called raise on three grounds and
    no other: the type does not resolve to [STATIC], a string [chainId] is
    rejected by [int(s, 16)], or [v], [r] and [s] are all present and
    [bytes(r)] or [bytes(s)] raises. *)
Theorem normalize_succeeds_iff others ap (kwargs : gmap string PyVal) :
  (exists cls kwargs', normalize others ap kwargs = Ok (cls, kwargs')) <->
  _get_transaction_type others (kwargs_get "type" kwargs) = Ok STATIC /\
  chain_id_accepted kwargs /\ signature_accepted kwargs.
Proof.
  split.
  - intros (cls & kwargs' & Hn).
    destruct (normalize_Ok _ _ _ _ _ Hn) as (kwargs1 & Ht & _ & H1 & H2).
    split; [exact Ht | split].
    + intros s Hs Hp.
      rewrite (convert_chain_id_str _ s) in H1
        by (rewrite before_chain_id_lookup; exact Hs).
      rewrite Hp in H1. discriminate H1.
    + intros v r s Hv Hr Hs.
      assert (L : forall k, k <> "type" -> k <> "required_confirmations" ->
                            k <> "chainId" -> k <> "hash" -> k <> "data" ->
                            rename_hash kwargs1 !! k = kwargs !! k).
      { intros k ? ? ? ? ?. rewrite rename_hash_other by assumption.
        apply (before_hash_lookup ap); assumption. }
      rewrite <- (L "v") in Hv by discriminate.
      rewrite <- (L "r") in Hr by discriminate.
      rewrite <- (L "s") in Hs by discriminate.
      destruct (assemble_signature_present _ _ v r s Hv Hr Hs H2)
        as (r' & s' & Hr' & Hs' & _).
      eauto.
  - intros (Ht & Hc & Hsig).
    destruct (normalize_until_signature others ap kwargs Ht Hc)
      as (kwargs1 & H1 & ->).
    assert (L : forall k, k <> "type" -> k <> "required_confirmations" ->
                          k <> "chainId" -> k <> "hash" -> k <> "data" ->
                          rename_hash kwargs1 !! k = kwargs !! k).
    { intros k ? ? ? ? ?. rewrite rename_hash_other by assumption.
      apply (before_hash_lookup ap); assumption. }
    unfold assemble_signature.
    rewrite (L "v"), (L "r"), (L "s") by discriminate.
    destruct (kwargs !! "v") as [v|] eqn:Ev; [|eauto].
    destruct (kwargs !! "r") as [r|] eqn:Er; [|eauto].
    destruct (kwargs !! "s") as [s|] eqn:Es; [|eauto].
    destruct (Hsig v r s Ev Er Es) as [[r' ->] [s' ->]].
    eauto.
Qed.

(** ** Normalising twice *)

Lemma normalize_type_field others ap (kwargs : gmap string PyVal)
    (cls : TransactionClass) (kwargs' : gmap string Field) :
  normalize others ap kwargs = Ok (cls, kwargs') ->
  kwargs' !! "type" = Some (Plain (PyInt 0)).
Proof.
  intros Hn.
  destruct (normalize_Ok _ _ _ _ _ Hn) as (kwargs1 & _ & _ & H1 & H2).
  rewrite (assemble_signature_other _ _ "type" H2) by discriminate.
  rewrite rename_hash_other by discriminate.
  rewrite (convert_chain_id_other _ _ "type" H1) by discriminate.
  rewrite default_confirmations_other by discriminate.
  rewrite lookup_insert_eq. reflexivity.
Qed.

Lemma normalize_confirmations_field others ap (kwargs : gmap string PyVal)
    (cls : TransactionClass) (kwargs' : gmap string Field) :
  normalize others ap kwargs = Ok (cls, kwargs') ->
  exists x, x <> PyNone /\
            kwargs' !! "required_confirmations" = Some (Plain x).
Proof.
  intros Hn.
  destruct (normalize_Ok _ _ _ _ _ Hn) as (kwargs1 & _ & _ & H1 & H2).
  rewrite (assemble_signature_other _ _ _ H2) by discriminate.
  rewrite rename_hash_other by discriminate.
  rewrite (convert_chain_id_other _ _ _ H1) by discriminate.
  set (m := <["type" := value STATIC]> kwargs).
  destruct (m !! "required_confirmations") as [x|] eqn:E.
  - destruct (decide (x = PyNone)) as [->|Hx].
    + rewrite default_confirmations_absent by (right; exact E).
      eexists. split; [|reflexivity]. discriminate.
    + rewrite (default_confirmations_present ap m x E Hx), E.
      exists x. split; [exact Hx | reflexivity].
  - rewrite default_confirmations_absent by (left; exact E).
    eexists. split; [|reflexivity]. discriminate.
Qed.

Lemma normalize_chain_id_field others ap (kwargs : gmap string PyVal)
    (cls : TransactionClass) (kwargs' : gmap string Field) (s : string) :
  normalize others ap kwargs = Ok (cls, kwargs') ->
  kwargs' !! "chainId" <> Some (Plain (PyStr s)).
Proof.
  intros Hn.
  destruct (normalize_Ok _ _ _ _ _ Hn) as (kwargs1 & _ & _ & H1 & H2).
  rewrite (assemble_signature_other _ _ _ H2) by discriminate.
  rewrite rename_hash_other by discriminate.
  pose proof (before_chain_id_lookup ap kwargs) as L.
  destruct (kwargs !! "chainId") as [[| | s0 |]|] eqn:E.
  3: { rewrite (convert_chain_id_str _ s0 L) in H1.
       destruct (parse_int16 s0); [|discriminate H1]. injection H1 as <-.
       rewrite lookup_insert_eq. discriminate. }
  all: rewrite convert_chain_id_not_str in H1
         by (intros s'; rewrite L; discriminate);
       injection H1 as <-;
       change (PyInt 0) with (value STATIC);
       rewrite L; discriminate.
Qed.

(** X14.  A normalised mapping is a fixed point: when no signature was
    built, so that the mapping given to the class holds only values a
    caller could give, normalising it again, under any active provider,
    gives the same mapping and the same class.  The [type] written by the
    first pass, 0, is falsy and resolves to [STATIC] again. *)
Theorem normalize_idempotent others ap ap'
    (kwargs kwargs1 : gmap string PyVal) (cls : TransactionClass) :
  normalize others ap kwargs = Ok (cls, Plain <$> kwargs1) ->
  normalize others ap' kwargs1 = Ok (cls, Plain <$> kwargs1).
Proof.
  intros Hn.
  pose proof (normalize_type_field _ _ _ _ _ Hn) as Ht.
  apply lookup_fmap_Plain in Ht.
  destruct (normalize_confirmations_field _ _ _ _ _ Hn) as (x & Hx & Hr).
  apply lookup_fmap_Plain in Hr.
  assert (Hc : forall s, kwargs1 !! "chainId" <> Some (PyStr s)).
  { intros s E. apply (normalize_chain_id_field _ _ _ _ _ s Hn).
    apply lookup_fmap_Plain. exact E. }
  assert (Hh : kwargs1 !! "hash" = None).
  { apply lookup_fmap_Plain_None.
    destruct (normalize_Ok _ _ _ _ _ Hn) as (k1 & _ & _ & _ & H2).
    rewrite (assemble_signature_other _ _ "hash" H2) by discriminate.
    unfold rename_hash. destruct (k1 !! "hash") eqn:E.
    - rewrite lookup_insert_ne by discriminate.
      rewrite lookup_delete_eq. reflexivity.
    - rewrite E. reflexivity. }
  assert (Hs : kwargs1 !! "v" = None \/ kwargs1 !! "r" = None \/
               kwargs1 !! "s" = None).
  { destruct (normalize_Ok _ _ _ _ _ Hn) as (k1 & _ & _ & _ & H2).
    pose proof (assemble_signature_other _ _ "v" H2 ltac:(discriminate)) as Lv.
    pose proof (assemble_signature_other _ _ "r" H2 ltac:(discriminate)) as Lr.
    pose proof (assemble_signature_other _ _ "s" H2 ltac:(discriminate)) as Ls.
    rewrite lookup_fmap in Lv, Lr, Ls.
    destruct (kwargs1 !! "v") as [v|]; [|auto].
    destruct (kwargs1 !! "r") as [r|]; [|auto].
    destruct (kwargs1 !! "s") as [s|]; [|auto].
    exfalso.
    destruct (rename_hash k1 !! "v") as [v'|] eqn:Ev; [|discriminate Lv].
    destruct (rename_hash k1 !! "r") as [r'|] eqn:Er; [|discriminate Lr].
    destruct (rename_hash k1 !! "s") as [s'|] eqn:Es; [|discriminate Ls].
    destruct (assemble_signature_present _ _ v' r' s' Ev Er Es H2)
      as (rb & sb & _ & _ & E).
    apply (lookup_fmap_Plain_Signature kwargs1 "signature"
             {| sig_v := v'; sig_r := rb; sig_s := sb |}).
    rewrite E. apply lookup_insert_eq. }
  destruct (normalize_Ok _ _ _ _ _ Hn) as (_ & _ & -> & _).
  unfold normalize.
  rewrite (kwargs_get_lookup _ _ _ Ht).
  rewrite (_get_transaction_type_falsy others (PyInt 0) eq_refl).
  rewrite bind_of_Ok, _get_transaction_cls_STATIC, bind_of_Ok.
  rewrite (insert_id kwargs1 "type" (value STATIC) Ht).
  rewrite (default_confirmations_present ap' kwargs1 x Hr Hx).
  rewrite (convert_chain_id_not_str kwargs1 Hc), bind_of_Ok.
  assert (Eh : rename_hash kwargs1 = kwargs1)
    by (unfold rename_hash; rewrite Hh; reflexivity).
  rewrite Eh, (assemble_signature_missing kwargs1 Hs). reflexivity.
Qed.

Lemma normalize_idempotent_witness :
  exists kwargs1 : gmap string PyVal,
    normalize ape_others None {[ "chainId" := PyStr "0x45" ]}
    = Ok (StaticFeeTransaction, Plain <$> kwargs1) /\
    normalize ape_others (Some {| network_required_confirmations := 2 |})
      kwargs1
    = Ok (StaticFeeTransaction, Plain <$> kwargs1).
Proof.
  exists {[ "type" := PyInt 0; "required_confirmations" := PyInt 0;
            "chainId" := PyInt 69 ]}.
  assert (H : normalize ape_others None {[ "chainId" := PyStr "0x45" ]}
              = Ok (StaticFeeTransaction,
                    Plain <$> ({[ "type" := PyInt 0;
                                  "required_confirmations" := PyInt 0;
                                  "chainId" := PyInt 69 ]}
                               : gmap string PyVal))).
  { vm_compute. reflexivity. }
  split; [exact H|].
  apply (normalize_idempotent ape_others None _ _ _ _ H).
Defined.

(** ** What the signature step raises *)

(** X15.  With [v], [r] and [s] present (and the type and chain id
    accepted), an exception of [bytes(r)] is what [create_transaction]
    raises, whatever [s] is; an exception of [bytes(s)] is raised when
    [bytes(r)] went through.  The class is not called in either case. *)
Theorem signature_errors_propagate others ap (Model : Type)
    (parse_obj : TransactionClass -> gmap string Field -> result Model)
    (kwargs : gmap string PyVal) (v r s : PyVal) :
  _get_transaction_type others (kwargs_get "type" kwargs) = Ok STATIC ->
  chain_id_accepted kwargs ->
  kwargs !! "v" = Some v -> kwargs !! "r" = Some r -> kwargs !! "s" = Some s ->
  (forall e, py_bytes r = Raise e ->
             create_transaction others ap Model parse_obj kwargs = Raise e) /\
  (forall r' e, py_bytes r = Ok r' -> py_bytes s = Raise e ->
                create_transaction others ap Model parse_obj kwargs = Raise e).
Proof.
  intros Ht Hc Hv Hr Hs.
  destruct (normalize_until_signature others ap kwargs Ht Hc)
    as (kwargs1 & H1 & Hn).
  assert (L : forall k, k <> "type" -> k <> "required_confirmations" ->
                        k <> "chainId" -> k <> "hash" -> k <> "data" ->
                        rename_hash kwargs1 !! k = kwargs !! k).
  { intros k ? ? ? ? ?. rewrite rename_hash_other by assumption.
    apply (before_hash_lookup ap); assumption. }
  assert (E : assemble_signature (rename_hash kwargs1) =
              (r' ← py_bytes r; s' ← py_bytes s;
               Ok (<["signature" :=
                       Signature {| sig_v := v; sig_r := r'; sig_s := s' |}]>
                     (Plain <$> rename_hash kwargs1)))).
  { unfold assemble_signature.
    rewrite (L "v"), (L "r"), (L "s"), Hv, Hr, Hs by discriminate.
    reflexivity. }
  unfold create_transaction. rewrite Hn, E.
  split.
  - intros e ->. reflexivity.
  - intros r' e -> ->. reflexivity.
Qed.

Lemma signature_errors_propagate_witness :
  create_transaction ape_others None _ accept_all
    {[ "v" := PyInt 27; "r" := PyStr "0x01"; "s" := PyBytes [x02] ]}
  = Raise TypeError.
Proof.
  refine (proj1 (signature_errors_propagate ape_others None _ accept_all
                   {[ "v" := PyInt 27; "r" := PyStr "0x01";
                      "s" := PyBytes [x02] ]}
                   (PyInt 27) (PyStr "0x01") (PyBytes [x02]) _ _ _ _ _)
                TypeError _); try reflexivity.
  intros s Hs. discriminate Hs.
Defined.

(** X16.  An integer under [r] is never turned into the bytes of that
    number: a negative one raises [ValueError], one above the largest
    size raises [OverflowError], and any other gives a signature whose
    [r] is that many zero bytes. *)
Theorem integer_r_is_a_count others ap (Model : Type)
    (parse_obj : TransactionClass -> gmap string Field -> result Model)
    (kwargs : gmap string PyVal) (v s : PyVal) (n : Z) :
  _get_transaction_type others (kwargs_get "type" kwargs) = Ok STATIC ->
  chain_id_accepted kwargs ->
  kwargs !! "v" = Some v -> kwargs !! "r" = Some (PyInt n) ->
  kwargs !! "s" = Some s ->
  (n < 0 ->
   create_transaction others ap Model parse_obj kwargs =
     Raise (ValueError NegativeCount)) /\
  (max_bytes_size < n ->
   create_transaction others ap Model parse_obj kwargs = Raise OverflowError) /\
  (forall cls kwargs',
     normalize others ap kwargs = Ok (cls, kwargs') ->
     0 <= n <= max_bytes_size /\
     exists s',
       kwargs' !! "signature" =
         Some (Signature {| sig_v := v;
                            sig_r := repeat x00 (Z.to_nat n);
                            sig_s := s' |})).
Proof.
  intros Ht Hc Hv Hr Hs.
  destruct (normalize_until_signature others ap kwargs Ht Hc)
    as (kwargs1 & H1 & Hn).
  assert (L : forall k, k <> "type" -> k <> "required_confirmations" ->
                        k <> "chainId" -> k <> "hash" -> k <> "data" ->
                        rename_hash kwargs1 !! k = kwargs !! k).
  { intros k ? ? ? ? ?. rewrite rename_hash_other by assumption.
    apply (before_hash_lookup ap); assumption. }
  assert (E : assemble_signature (rename_hash kwargs1) =
              (r' ← py_bytes (PyInt n); s' ← py_bytes s;
               Ok (<["signature" :=
                       Signature {| sig_v := v; sig_r := r'; sig_s := s' |}]>
                     (Plain <$> rename_hash kwargs1)))).
  { unfold assemble_signature.
    rewrite (L "v"), (L "r"), (L "s"), Hv, Hr, Hs by discriminate.
    reflexivity. }
  split; [|split].
  - intros Hneg. unfold create_transaction. rewrite Hn, E.
    unfold py_bytes. destruct (n <? 0) eqn:B; [reflexivity|].
    apply Z.ltb_ge in B. lia.
  - intros Hbig. unfold create_transaction. rewrite Hn, E.
    unfold py_bytes. destruct (n <? 0) eqn:B.
    + apply Z.ltb_lt in B. unfold max_bytes_size in Hbig. lia.
    + destruct (max_bytes_size <? n) eqn:B'; [reflexivity|].
      apply Z.ltb_ge in B'. lia.
  - intros cls kwargs' Hok. rewrite Hn in Hok.
    apply bind_Ok in Hok as (kwargs2 & Hk & Hok). injection Hok as _ <-.
    rewrite E in Hk.
    apply bind_Ok in Hk as (r' & Hr' & Hk).
    apply bind_Ok in Hk as (s' & Hs' & Hk). injection Hk as <-.
    unfold py_bytes in Hr'.
    destruct (n <? 0) eqn:B; [discriminate Hr'|].
    destruct (max_bytes_size <? n) eqn:B'; [discriminate Hr'|].
    injection Hr' as <-.
    apply Z.ltb_ge in B, B'. split; [lia|].
    exists s'. apply lookup_insert_eq.
Qed.

Lemma integer_r_is_a_count_witness :
  exists kwargs' s',
    normalize ape_others None
      {[ "v" := PyInt 27; "r" := PyInt 3; "s" := PyBytes [x02] ]}
    = Ok (StaticFeeTransaction, kwargs') /\
    kwargs' !! "signature" =
      Some (Signature {| sig_v := PyInt 27;
                         sig_r := [x00; x00; x00];
                         sig_s := s' |}).
Proof.
  eexists.
  assert (H : normalize ape_others None
                {[ "v" := PyInt 27; "r" := PyInt 3; "s" := PyBytes [x02] ]}
              = Ok (StaticFeeTransaction, _)) by reflexivity.
  assert (Hc : chain_id_accepted
                 {[ "v" := PyInt 27; "r" := PyInt 3; "s" := PyBytes [x02] ]})
    by (intros s Hs; discriminate Hs).
  assert (Ht : _get_transaction_type ape_others
                 (kwargs_get "type"
                    {[ "v" := PyInt 27; "r" := PyInt 3;
                       "s" := PyBytes [x02] ]}) = Ok STATIC) by reflexivity.
  destruct (proj2 (proj2 (integer_r_is_a_count ape_others None _ accept_all
                            {[ "v" := PyInt 27; "r" := PyInt 3;
                               "s" := PyBytes [x02] ]}
                            (PyInt 27) (PyBytes [x02]) 3
                            Ht Hc eq_refl eq_refl eq_refl))
              _ _ H) as (_ & s' & Hsig).
  exists s'. split; [exact H | exact Hsig].
Defined.

(** ** Signed chain ids *)

Lemma hex_digits_value_nonneg (s : string) (acc v : Z) :
  0 <= acc -> hex_digits_value acc s = Some v -> 0 <= v.
Proof.
  revert acc. induction s as [|c s IH]; intros acc Ha; simpl.
  - intros [= <-]. exact Ha.
  - destruct (digit_value c) as [d|] eqn:Hd; [|discriminate].
    destruct (hex_digit_char c d Hd) as (_ & _ & _ & _ & _ & _ & Hr).
    apply IH. lia.
Qed.

Lemma skip_base_prefix_hex (s : string) (v : Z) :
  base16_value s = Some v -> skip_base_prefix s = s.
Proof.
  intros H.
  destruct (base16_value_head s v H) as (c & d & s' & -> & Hd & Hs').
  destruct Hs' as [-> | (c' & d' & s'' & -> & Hd')]; [reflexivity|].
  destruct (hex_digit_char c' d' Hd') as (_ & _ & _ & _ & Hx & HX & _).
  unfold skip_base_prefix. rewrite Hx, HX, andb_false_r. reflexivity.
Qed.

Lemma parse_int16_signed (s : string) (v : Z) :
  base16_value s = Some v ->
  parse_int16 ("-" ++ s) = Some (- v) /\
  parse_int16 ("-0x" ++ s) = Some (- v) /\
  parse_int16 ("+" ++ s) = Some v.
Proof.
  intros H. pose proof (parse_digits_hex s v H) as Hp.
  pose proof (skip_base_prefix_hex s v H) as Hb.
  destruct (base16_value_head s v H) as (c & d & s' & E & Hd & _).
  destruct (hex_digit_char c d Hd) as (_ & Hu & _).
  assert (Hb' : skip_base_prefix ("0x" ++ s) = s).
  { rewrite E.
    change (skip_base_prefix ("0x" ++ String c s'))
      with (if is_char c "_" then s' else String c s').
    rewrite Hu. reflexivity. }
  assert (M : forall t, parse_int16 ("-" ++ t) =
                        match parse_digits (skip_base_prefix t) with
                        | Some n => Some (-1 * n)
                        | None => None
                        end) by reflexivity.
  assert (P : forall t, parse_int16 ("+" ++ t) =
                        match parse_digits (skip_base_prefix t) with
                        | Some n => Some (1 * n)
                        | None => None
                        end) by reflexivity.
  split; [|split].
  - rewrite M, Hb, Hp. f_equal; lia.
  - change ("-0x" ++ s) with ("-" ++ ("0x" ++ s)).
    rewrite M, Hb', Hp. f_equal; lia.
  - rewrite P, Hb, Hp. f_equal; lia.
Qed.

Lemma normalize_chain_id_parsed others ap (kwargs : gmap string PyVal)
    (cls : TransactionClass) (kwargs' : gmap string Field) (s : string) :
  kwargs !! "chainId" = Some (PyStr s) ->
  normalize others ap kwargs = Ok (cls, kwargs') ->
  exists n, parse_int16 s = Some n /\
            kwargs' !! "chainId" = Some (Plain (PyInt n)).
Proof.
  intros Hs Hn.
  destruct (normalize_Ok _ _ _ _ _ Hn) as (kwargs1 & _ & _ & H1 & H2).
  rewrite (convert_chain_id_str _ s) in H1
    by (rewrite before_chain_id_lookup; exact Hs).
  destruct (parse_int16 s) as [n|]; [|discriminate H1].
  injection H1 as <-. exists n. split; [reflexivity|].
  rewrite (assemble_signature_other _ _ _ H2) by discriminate.
  rewrite rename_hash_other by discriminate.
  rewrite lookup_insert_eq. reflexivity.
Qed.

(** X17.  The sign of a chain id is not checked.  Hex digits alone, or
    after "+", give a number that is not negative; the same digits after
    "-" or "-0x" are accepted too and give its negation to the class. *)
Theorem chain_id_sign_is_kept others ap
    (kwargs : gmap string PyVal) (cls : TransactionClass)
    (kwargs' : gmap string Field) (s digits : string) (v : Z) :
  kwargs !! "chainId" = Some (PyStr s) ->
  base16_value digits = Some v ->
  normalize others ap kwargs = Ok (cls, kwargs') ->
  0 <= v /\
  (s = "+" ++ digits -> kwargs' !! "chainId" = Some (Plain (PyInt v))) /\
  (s = "-" ++ digits \/ s = "-0x" ++ digits ->
   kwargs' !! "chainId" = Some (Plain (PyInt (- v)))).
Proof.
  intros Hs Hv Hn.
  destruct (normalize_chain_id_parsed _ _ _ _ _ s Hs Hn) as (n & Hp & Hc).
  destruct (parse_int16_signed digits v Hv) as (Hm & Hmx & Hplus).
  split; [|split].
  - destruct digits as [|c t]; [discriminate Hv|].
    apply (hex_digits_value_nonneg (String c t) 0 v); [lia | exact Hv].
  - intros ->. rewrite Hplus in Hp. injection Hp as <-. exact Hc.
  - intros [-> | ->].
    + rewrite Hm in Hp. injection Hp as <-. exact Hc.
    + rewrite Hmx in Hp. injection Hp as <-. exact Hc.
Qed.

Lemma chain_id_sign_is_kept_witness :
  exists kwargs',
    normalize ape_others None {[ "chainId" := PyStr "-0x45" ]}
    = Ok (StaticFeeTransaction, kwargs') /\
    kwargs' !! "chainId" = Some (Plain (PyInt (- 69))).
Proof.
  eexists.
  assert (H : normalize ape_others None {[ "chainId" := PyStr "-0x45" ]}
              = Ok (StaticFeeTransaction, _)) by reflexivity.
  split; [exact H|].
  refine (proj2 (proj2 (chain_id_sign_is_kept ape_others None
                          {[ "chainId" := PyStr "-0x45" ]} _ _
                          "-0x45" "45" 69 _ _ H)) _);
    [reflexivity | reflexivity | right; reflexivity].
Defined.

(** ** Networks *)

Lemma NETWORKS_names (name : string) (ids : Z * Z) :
  NETWORKS !! name = Some ids ->
  (name = "mainnet" /\ ids = (1101, 1101)) \/
  (name = "goerli" /\ ids = (1442, 1442)).
Proof.
  unfold NETWORKS. intros H.
  destruct (decide (name = "mainnet")) as [->|Hm].
  - rewrite lookup_insert_eq in H. injection H as <-. auto.
  - rewrite lookup_insert_ne in H by congruence.
    destruct (decide (name = "goerli")) as [->|Hg].
    + rewrite lookup_singleton_eq in H. injection H as <-. auto.
    + rewrite lookup_singleton_ne in H by congruence. discriminate H.
Qed.

(** X18.  Every network of [NETWORKS] has its chain id as network id, a
    chain id no other network has, a configuration that waits for one
    confirmation with a block time of 2, and a fork twin that waits for
    none, has block time 0 and is given no default provider. *)
Theorem networks_are_configured (name : string) (chain_id network_id : Z) :
  NETWORKS !! name = Some (chain_id, network_id) ->
  chain_id = network_id /\
  (forall name' ids, NETWORKS !! name' = Some ids -> ids.1 = chain_id ->
                     name' = name) /\
  config_get name PolygonZkEVMConfig =
    Some {| required_confirmations := 1; block_time := 2;
            config_kwargs := ∅ |} /\
  config_get (name ++ "_fork") PolygonZkEVMConfig =
    Some {| required_confirmations := 0; block_time := 0;
            config_kwargs := {[ "default_provider" := PyNone ]} |}.
Proof.
  intros H.
  destruct (NETWORKS_names _ _ H) as [[-> [= -> ->]] | [-> [= -> ->]]].
  - split; [reflexivity | split; [|split; reflexivity]].
    intros name' ids H' Hid.
    destruct (NETWORKS_names _ _ H') as [[-> _] | [_ ->]];
      [reflexivity | discriminate Hid].
  - split; [reflexivity | split; [|split; reflexivity]].
    intros name' ids H' Hid.
    destruct (NETWORKS_names _ _ H') as [[_ ->] | [-> _]];
      [discriminate Hid | reflexivity].
Qed.

Lemma networks_are_configured_witness :
  config_get "goerli_fork" PolygonZkEVMConfig =
    Some {| required_confirmations := 0; block_time := 0;
            config_kwargs := {[ "default_provider" := PyNone ]} |}.
Proof.
  refine (proj2 (proj2 (proj2 (networks_are_configured "goerli" 1442 1442 _)))).
  reflexivity.
Defined.
